(** * Audit scoring engine of siteaudit-backend

    A shallow embedding of the four dimension analyzers
    ([seoService], [performanceService], [accessibilityService],
    [bestPracticesService]) and of the aggregator ([auditService]),
    followed by the properties of the scoring engine.

    The collaborators of the engine are modelled by what the engine
    observes of them:
    - axios: a request either resolves with a response or rejects with
      a message ([Axios.Outcome]);
    - cheerio: a parsed document is a tree of elements and text nodes,
      queried by selectors read as predicates on elements ([Cheerio]);
    - strings are sequences of code units below 256 ([JS]). *)

From Stdlib Require Import ZArith List String Ascii Bool Lia.
From Stdlib Require Import QArith Qround DecimalString Lqa.
Import ListNotations.

Local Open Scope string_scope.
Local Open Scope Z_scope.

(** ** JavaScript values used by the services *)

Module JS.

(** The double quote, for messages that contain one. *)
Definition dquote : string := String "034"%char EmptyString.

(** [!s] is [true] exactly for the empty string. *)
Definition truthy (s : string) : bool := negb (String.eqb s "").

(** Truthiness of a value that may be [undefined] ([None]). *)
Definition truthy_opt (o : option string) : bool :=
  match o with
  | Some s => truthy s
  | None => false
  end.

(** [o || d] on a string that may be [undefined]. *)
Definition or_else (o : option string) (d : string) : string :=
  if truthy_opt o then match o with Some s => s | None => d end else d.

(** [s.startsWith(p)] *)
Definition startsWith (s p : string) : bool := String.prefix p s.

(** [s.includes(sub)] *)
Fixpoint includes (s sub : string) : bool :=
  String.prefix sub s
  || match s with
     | EmptyString => false
     | String _ rest => includes rest sub
     end.

(** White space and line terminators of ECMAScript among the code
    units below 256: TAB, LF, VT, FF, CR, SP and NBSP. *)
Definition isWhiteSpace (c : ascii) : bool :=
  let n := nat_of_ascii c in
  ((9 <=? n) && (n <=? 13) || (n =? 32) || (n =? 160))%nat.

Fixpoint trimStart (s : string) : string :=
  match s with
  | EmptyString => EmptyString
  | String c rest => if isWhiteSpace c then trimStart rest else s
  end.

Fixpoint trimEnd (s : string) : string :=
  match s with
  | EmptyString => EmptyString
  | String c rest =>
      let t := trimEnd rest in
      if isWhiteSpace c && String.eqb t "" then EmptyString else String c t
  end.

(** [s.trim()] *)
Definition trim (s : string) : string := trimEnd (trimStart s).

(** Lower case of one code unit below 256: A-Z, and the letters of
    U+00C0..U+00DE other than the multiplication sign U+00D7. *)
Definition lowerChar (c : ascii) : ascii :=
  let n := nat_of_ascii c in
  if ((65 <=? n) && (n <=? 90)
      || (192 <=? n) && (n <=? 222) && negb (n =? 215))%nat
  then ascii_of_nat (n + 32)
  else c.

(** [s.toLowerCase()] *)
Fixpoint toLowerCase (s : string) : string :=
  match s with
  | EmptyString => EmptyString
  | String c rest => String (lowerChar c) (toLowerCase rest)
  end.

(** [s.charAt(i)]: the one-character string at [i], or the empty
    string out of range. *)
Definition charAt (s : string) (i : nat) : string :=
  match String.get i s with
  | Some c => String c EmptyString
  | None => EmptyString
  end.

(** [parseInt] on the result of [charAt]: a decimal digit gives its
    value, anything else gives [NaN] ([None]). *)
Definition parseInt (s : string) : option Z :=
  match s with
  | String c EmptyString =>
      let n := nat_of_ascii c in
      if ((48 <=? n) && (n <=? 57))%nat then Some (Z.of_nat (n - 48)) else None
  | _ => None
  end.

(** [a > b] on numbers that may be [NaN]: false as soon as one is. *)
Definition gt (a b : option Z) : bool :=
  match a, b with
  | Some x, Some y => y <? x
  | _, _ => false
  end.

(** [a + k] and [a !== k] for a literal [k]. *)
Definition plus (a : option Z) (k : Z) : option Z := option_map (fun x => x + k) a.

Definition strict_neq (a : option Z) (k : Z) : bool :=
  match a with
  | Some x => negb (x =? k)
  | None => true
  end.

(** [Math.round]: the nearest integer, a tie going up. *)
Definition Math_round (q : Q) : Z := Qfloor (q + (1 # 2)).

(** Template-literal conversion of a count and of an integer. *)
Definition show_nat (n : nat) : string := NilEmpty.string_of_uint (Nat.to_uint n).

Definition show (z : Z) : string := NilZero.string_of_int (Z.to_int z).

End JS.

(** ** The parsed document *)

Module Cheerio.

(** A node of the tree [cheerio.load] builds: an element with its
    attributes (a repeated name keeps its first value) and children,
    or a text node. *)
#[warnings="-register-all"]
Inductive node : Type :=
| Element (tagName : string) (attribs : list (string * string)) (children : list node)
| Text (data : string).

(** The children of the document root. *)
Definition document : Type := list node.

Definition tagName (n : node) : string :=
  match n with
  | Element t _ _ => t
  | Text _ => EmptyString
  end.

Fixpoint lookup (name : string) (l : list (string * string)) : option string :=
  match l with
  | [] => None
  | (k, v) :: rest => if String.eqb k name then Some v else lookup name rest
  end.

(** [$(el).attr(name)] *)
Definition attrOf (n : node) (name : string) : option string :=
  match n with
  | Element _ a _ => lookup name a
  | Text _ => None
  end.

(** The elements of a subtree in document order. *)
Fixpoint elementsOf (n : node) : list node :=
  match n with
  | Element _ _ cs => n :: flat_map elementsOf cs
  | Text _ => []
  end.

Definition elements (d : document) : list node := flat_map elementsOf d.

(** [$(el).text()]: the text of all descendants, concatenated. *)
Fixpoint textOf (n : node) : string :=
  match n with
  | Element _ _ cs => String.concat "" (map textOf cs)
  | Text s => s
  end.

(** A selector is read as a predicate on elements. *)
Definition selector : Type := node -> bool.

(** [tag]: a type selector such as [h1]. *)
Definition tag (t : string) : selector :=
  fun n => match n with Element t' _ _ => String.eqb t' t | Text _ => false end.

(** [[name]] *)
Definition hasAttr (name : string) : selector :=
  fun n => match attrOf n name with Some _ => true | None => false end.

(** [[name="value"]] *)
Definition attrIs (name value : string) : selector :=
  fun n => match attrOf n name with Some v => String.eqb v value | None => false end.

(** [[name^="value"]]; an empty value matches nothing. *)
Definition attrBegins (name value : string) : selector :=
  fun n => match attrOf n name with
           | Some v => JS.truthy value && JS.startsWith v value
           | None => false
           end.

(** [[name*="value"]]; an empty value matches nothing. *)
Definition attrContains (name value : string) : selector :=
  fun n => match attrOf n name with
           | Some v => JS.truthy value && JS.includes v value
           | None => false
           end.

(** [:not(s)], compound selectors and selector lists. *)
Definition not_ (s : selector) : selector := fun n => negb (s n).
Definition and_ (s t : selector) : selector := fun n => s n && t n.
Definition anyOf (ss : list selector) : selector := fun n => existsb (fun s => s n) ss.

(** [$(selector)]: the matching elements in document order. *)
Definition select (d : document) (s : selector) : list node := filter s (elements d).

(** [$(selector).attr(name)]: the attribute of the first match. *)
Definition attr (sel : list node) (name : string) : option string :=
  match sel with
  | [] => None
  | n :: _ => attrOf n name
  end.

(** [$(selector).text()]: the texts of all matches, concatenated. *)
Definition text (sel : list node) : string := String.concat "" (map textOf sel).

End Cheerio.

(** ** The fetched response *)

Module Axios.

(** Response headers, by lower-case name. *)
Definition Headers : Type := list (string * string).

(** [headers[name]] *)
Definition header (h : Headers) (name : string) : option string := Cheerio.lookup name h.

(** The response body, through its two readers:
    [Buffer.byteLength(data, 'utf8')] and [cheerio.load(data)]. *)
Record Body : Type := { byteLength : N; load : Cheerio.document }.

Record Response : Type := { data : Body; headers : Headers }.

(** [await axios.get(url, ...)] resolves or rejects with an error
    that carries a message. *)
Inductive Outcome : Type :=
| Resolved (response : Response)
| Rejected (message : string).

End Axios.

(** ** Records shared by the services *)

Module Grade.
Inductive t : Type := A | B | C | D | F.
End Grade.

Inductive IssueType : Type := error | warning | info.

Inductive Impact : Type := high | medium | low.

Record Issue : Type := { type : IssueType; message : string; impact : Impact }.

(** The two locals every analyzer threads through its checks:
    [const issues = []] and [let score = 100]. *)
Record Tally : Type := { issues : list Issue; score : Z }.

Definition start : Tally := {| issues := []; score := 100 |}.

(** [issues.push(i); score -= d] *)
Definition flag (i : Issue) (d : Z) (t : Tally) : Tally :=
  {| issues := issues t ++ [i]; score := score t - d |}.

(** What an analyzer returns; [D] is the dimension's own part. *)
Module DimensionResult.
Record t (D : Type) : Type := mk {
  score : Z;
  grade : Grade.t;
  issues : list Issue;
  recommendations : list string;
  details : D
}.
Arguments mk {D}.
Arguments score {D}.
Arguments grade {D}.
Arguments issues {D}.
Arguments recommendations {D}.
Arguments details {D}.
End DimensionResult.

(** An [async] function returns or throws an [Error] with a message. *)
Inductive Throws (R : Type) : Type :=
| Return (r : R)
| Throw (message : string).

Arguments Return {R}.
Arguments Throw {R}.

(** [if (c) recommendations.push(r)] *)
Definition pushIf (c : bool) (r : string) (l : list string) : list string :=
  if c then l ++ [r] else l.

(** ** services/seoService.js

    [analyzeSEO] and its [getGrade] (src/services/seoService.js, lines 1 to 121). *)

Module seoService.
Import Cheerio.

Module Details.
Record t : Type := mk {
  title : string;
  titleLength : nat;
  metaDescription : string;
  metaDescriptionLength : nat;
  h1Count : nat;
  imagesWithoutAlt : nat;
  hasCanonical : bool;
  hasOpenGraph : bool
}.
End Details.

Definition getGrade (score : Z) : Grade.t :=
  if score >=? 90 then Grade.A
  else if score >=? 80 then Grade.B
  else if score >=? 70 then Grade.C
  else if score >=? 60 then Grade.D
  else Grade.F.

(** Check title tag *)
Definition checkTitle (title : string) (t : Tally) : Tally :=
  if negb (JS.truthy title) then
    flag {| type := error; message := "Missing title tag"; impact := high |} 15 t
  else if (String.length title <? 30)%nat || (60 <? String.length title)%nat then
    flag {| type := warning;
            message := "Title length should be 30-60 characters (current: "
                       ++ JS.show_nat (String.length title) ++ ")";
            impact := medium |} 10 t
  else t.

(** Check meta description *)
Definition checkMetaDescription (metaDescription : option string) (t : Tally) : Tally :=
  let length := String.length (JS.or_else metaDescription "") in
  if negb (JS.truthy_opt metaDescription) then
    flag {| type := error; message := "Missing meta description"; impact := high |} 15 t
  else if (length <? 120)%nat || (160 <? length)%nat then
    flag {| type := warning;
            message := "Meta description should be 120-160 characters (current: "
                       ++ JS.show_nat length ++ ")";
            impact := medium |} 8 t
  else t.

(** Check H1 tags *)
Definition checkH1 (h1Tags : list node) (t : Tally) : Tally :=
  if (List.length h1Tags =? 0)%nat then
    flag {| type := error; message := "Missing H1 tag"; impact := high |} 12 t
  else if (1 <? List.length h1Tags)%nat then
    flag {| type := warning; message := "Multiple H1 tags found"; impact := medium |} 8 t
  else t.

(** Check images without alt text *)
Definition checkImages (imagesWithoutAlt : nat) (t : Tally) : Tally :=
  if (0 <? imagesWithoutAlt)%nat then
    flag {| type := warning;
            message := JS.show_nat imagesWithoutAlt ++ " images missing alt text";
            impact := medium |}
         (Z.min (Z.of_nat imagesWithoutAlt * 2) 15) t
  else t.

(** Check for canonical URL *)
Definition checkCanonical (canonical : option string) (t : Tally) : Tally :=
  if negb (JS.truthy_opt canonical) then
    flag {| type := warning; message := "Missing canonical URL"; impact := low |} 5 t
  else t.

(** Check for Open Graph tags *)
Definition checkOpenGraph (ogTitle ogDescription : option string) (t : Tally) : Tally :=
  if negb (JS.truthy_opt ogTitle) || negb (JS.truthy_opt ogDescription) then
    flag {| type := info;
            message := "Missing Open Graph tags for social sharing";
            impact := low |} 3 t
  else t.

(** Generate recommendations *)
Definition recommend (issues : list Issue) : list string :=
  if (0 <? List.length issues)%nat then
    [ "Fix critical SEO issues first (missing title, meta description, H1)";
      "Optimize title and meta description lengths";
      "Add alt text to all images" ]
  else [].

(** The queries of the analyzer. *)
Definition title (doc : document) : string :=
  JS.trim (text (select doc (tag "title"))).

Definition metaDescription (doc : document) : option string :=
  attr (select doc (and_ (tag "meta") (attrIs "name" "description"))) "content".

Definition h1Tags (doc : document) : list node := select doc (tag "h1").

Definition imagesWithoutAlt (doc : document) : nat :=
  List.length (select doc (and_ (tag "img") (not_ (hasAttr "alt")))).

Definition canonical (doc : document) : option string :=
  attr (select doc (and_ (tag "link") (attrIs "rel" "canonical"))) "href".

Definition ogTitle (doc : document) : option string :=
  attr (select doc (and_ (tag "meta") (attrIs "property" "og:title"))) "content".

Definition ogDescription (doc : document) : option string :=
  attr (select doc (and_ (tag "meta") (attrIs "property" "og:description"))) "content".

(** The running tally after the six checks, in the order of the code. *)
Definition audit (doc : document) : Tally :=
  let t := start in
  let t := checkTitle (title doc) t in
  let t := checkMetaDescription (metaDescription doc) t in
  let t := checkH1 (h1Tags doc) t in
  let t := checkImages (imagesWithoutAlt doc) t in
  let t := checkCanonical (canonical doc) t in
  checkOpenGraph (ogTitle doc) (ogDescription doc) t.

Definition analyzeSEO (url : string) (get : Axios.Outcome)
  : Throws (DimensionResult.t Details.t) :=
  match get with
  | Axios.Rejected message => Throw ("SEO analysis failed: " ++ message)
  | Axios.Resolved response =>
      let doc := Axios.load (Axios.data response) in
      let t := audit doc in
      let title := title doc in
      let metaDescription := metaDescription doc in
      Return
        {| DimensionResult.score := Z.max (score t) 0;
           DimensionResult.grade := getGrade (score t);
           DimensionResult.issues := issues t;
           DimensionResult.recommendations := recommend (issues t);
           DimensionResult.details :=
             {| Details.title := if JS.truthy title then title else "Not found";
                Details.titleLength :=
                  if JS.truthy title then String.length title else 0%nat;
                Details.metaDescription := JS.or_else metaDescription "Not found";
                Details.metaDescriptionLength :=
                  if JS.truthy_opt metaDescription
                  then String.length (JS.or_else metaDescription "")
                  else 0%nat;
                Details.h1Count := List.length (h1Tags doc);
                Details.imagesWithoutAlt := imagesWithoutAlt doc;
                Details.hasCanonical := JS.truthy_opt (canonical doc);
                Details.hasOpenGraph :=
                  JS.truthy_opt (ogTitle doc) && JS.truthy_opt (ogDescription doc) |} |}
  end.

End seoService.

(** ** services/bestPracticesService.js

    [analyzeBestPractices] and its [getGrade] (src/services/seoService.js, lines 121
    to 310). *)

Module bestPracticesService.
Import Cheerio.

Module Details.
Record SecurityHeaders : Type := mkSecurityHeaders {
  contentTypeOptions : bool;
  frameOptions : bool;
  xssProtection : bool;
  hsts : bool
}.
Record t : Type := mk {
  isHTTPS : bool;
  hasViewport : bool;
  hasFavicon : bool;
  securityHeaders : SecurityHeaders;
  externalLinksCount : nat;
  unsafeExternalLinks : nat;
  deprecatedElements : nat;
  inlineStyles : nat;
  inlineScripts : nat
}.
End Details.

Definition getGrade (score : Z) : Grade.t :=
  if score >=? 90 then Grade.A
  else if score >=? 80 then Grade.B
  else if score >=? 70 then Grade.C
  else if score >=? 60 then Grade.D
  else Grade.F.

(** Check for HTTPS *)
Definition isHTTPS (url : string) : bool := JS.startsWith url "https://".

Definition checkHTTPS (isHTTPS : bool) (t : Tally) : Tally :=
  if negb isHTTPS then
    flag {| type := error; message := "Website not using HTTPS"; impact := high |} 20 t
  else t.

(** Check for security headers: the object's keys in insertion order,
    each with its message. *)
Definition securityHeaders : list (string * string) :=
  [ ("x-content-type-options", "Missing X-Content-Type-Options header");
    ("x-frame-options", "Missing X-Frame-Options header");
    ("x-xss-protection", "Missing X-XSS-Protection header");
    ("strict-transport-security", "Missing Strict-Transport-Security header") ].

Definition checkSecurityHeaders (headers : Axios.Headers) (t : Tally) : Tally :=
  fold_left
    (fun t header =>
       if negb (JS.truthy_opt (Axios.header headers (fst header))) then
         flag {| type := warning; message := snd header; impact := medium |} 5 t
       else t)
    securityHeaders t.

(** Check for viewport meta tag *)
Definition viewportMeta (doc : document) : option string :=
  attr (select doc (and_ (tag "meta") (attrIs "name" "viewport"))) "content".

Definition checkViewport (viewportMeta : option string) (t : Tally) : Tally :=
  if negb (JS.truthy_opt viewportMeta) then
    flag {| type := error; message := "Missing viewport meta tag"; impact := high |} 15 t
  else if negb (JS.includes (JS.or_else viewportMeta "") "width=device-width") then
    flag {| type := warning;
            message := "Viewport meta tag should include width=device-width";
            impact := medium |} 8 t
  else t.

(** Check for favicon *)
Definition favicon (doc : document) : bool :=
  (0 <? List.length (select doc (and_ (tag "link") (attrContains "rel" "icon"))))%nat
  || (0 <? List.length (select doc (and_ (tag "link") (attrIs "rel" "shortcut icon"))))%nat.

Definition checkFavicon (favicon : bool) (t : Tally) : Tally :=
  if negb favicon then
    flag {| type := info; message := "No favicon found"; impact := low |} 3 t
  else t.

(** Check for external links security.  [hostname] is
    [new URL(url).hostname]; the selector is
    [a[href^="http"]:not([href*="<hostname>"])]. *)
Definition externalLinks (doc : document) (hostname : string) : list node :=
  select doc
    (and_ (tag "a") (and_ (attrBegins "href" "http") (not_ (attrContains "href" hostname)))).

(** The filter callback: [rel] defaults to the empty string. *)
Definition unsafe (el : node) : bool :=
  let rel := JS.or_else (attrOf el "rel") "" in
  negb (JS.includes rel "noopener") || negb (JS.includes rel "noreferrer").

Definition unsafeExternalLinks (doc : document) (hostname : string) : nat :=
  List.length (filter unsafe (externalLinks doc hostname)).

Definition checkExternalLinks (unsafeExternalLinks : nat) (t : Tally) : Tally :=
  if (0 <? unsafeExternalLinks)%nat then
    flag {| type := warning;
            message := JS.show_nat unsafeExternalLinks
                       ++ " external links missing rel=" ++ JS.dquote
                       ++ "noopener noreferrer" ++ JS.dquote;
            impact := medium |}
         (Z.min (Z.of_nat unsafeExternalLinks * 2) 10) t
  else t.

(** Check for mixed content (HTTP resources on HTTPS page) *)
Definition httpResources (doc : document) : nat :=
  List.length
    (select doc
       (anyOf [ and_ (tag "img") (attrBegins "src" "http:");
                and_ (tag "script") (attrBegins "src" "http:");
                and_ (tag "link") (attrBegins "href" "http:") ])).

Definition checkMixedContent (isHTTPS : bool) (httpResources : nat) (t : Tally) : Tally :=
  if isHTTPS then
    if (0 <? httpResources)%nat then
      flag {| type := error;
              message := JS.show_nat httpResources
                         ++ " HTTP resources on HTTPS page (mixed content)";
              impact := high |} 15 t
    else t
  else t.

(** Check for deprecated HTML elements *)
Definition deprecatedElements (doc : document) : nat :=
  List.length
    (select doc (anyOf [ tag "center"; tag "font"; tag "marquee"; tag "blink" ])).

Definition checkDeprecated (deprecatedElements : nat) (t : Tally) : Tally :=
  if (0 <? deprecatedElements)%nat then
    flag {| type := warning;
            message := JS.show_nat deprecatedElements ++ " deprecated HTML elements found";
            impact := low |}
         (Z.of_nat deprecatedElements * 2) t
  else t.

(** Check for inline styles and scripts *)
Definition inlineStyles (doc : document) : nat :=
  List.length (select doc (hasAttr "style")).

Definition inlineScripts (doc : document) : nat :=
  List.length (select doc (and_ (tag "script") (not_ (hasAttr "src")))).

Definition checkInlineStyles (inlineStyles : nat) (t : Tally) : Tally :=
  if (5 <? inlineStyles)%nat then
    flag {| type := info;
            message := "Many inline styles found (" ++ JS.show_nat inlineStyles
                       ++ ") - consider using external CSS";
            impact := low |} 3 t
  else t.

Definition checkInlineScripts (inlineScripts : nat) (t : Tally) : Tally :=
  if (2 <? inlineScripts)%nat then
    flag {| type := info;
            message := "Multiple inline scripts found (" ++ JS.show_nat inlineScripts
                       ++ ") - consider using external JS";
            impact := low |} 3 t
  else t.

(** Generate recommendations *)
Definition recommend (isHTTPS : bool) (headers : Axios.Headers)
  (viewportMeta : option string) (unsafeExternalLinks : nat) : list string :=
  let r := [] in
  let r := pushIf (negb isHTTPS) "Implement HTTPS with valid SSL certificate" r in
  let r := pushIf (existsb (fun h => negb (JS.truthy_opt (Axios.header headers (fst h))))
                           securityHeaders)
                  "Add security headers for better protection" r in
  let r := pushIf (negb (JS.truthy_opt viewportMeta))
                  "Add viewport meta tag for mobile responsiveness" r in
  pushIf (0 <? unsafeExternalLinks)%nat
         ("Add rel=" ++ JS.dquote ++ "noopener noreferrer" ++ JS.dquote
          ++ " to external links") r.

(** The running tally after all checks, in the order of the code. *)
Definition audit (url : string) (response : Axios.Response) (hostname : string) : Tally :=
  let doc := Axios.load (Axios.data response) in
  let t := start in
  let t := checkHTTPS (isHTTPS url) t in
  let t := checkSecurityHeaders (Axios.headers response) t in
  let t := checkViewport (viewportMeta doc) t in
  let t := checkFavicon (favicon doc) t in
  let t := checkExternalLinks (unsafeExternalLinks doc hostname) t in
  let t := checkMixedContent (isHTTPS url) (httpResources doc) t in
  let t := checkDeprecated (deprecatedElements doc) t in
  let t := checkInlineStyles (inlineStyles doc) t in
  checkInlineScripts (inlineScripts doc) t.

(** [hostname] is what [new URL(url).hostname] evaluates to, or the
    [TypeError] the constructor throws. *)
Definition analyzeBestPractices (url : string) (get : Axios.Outcome)
  (hostname : Throws string) : Throws (DimensionResult.t Details.t) :=
  match get with
  | Axios.Rejected message => Throw ("Best practices analysis failed: " ++ message)
  | Axios.Resolved response =>
      match hostname with
      | Throw message => Throw ("Best practices analysis failed: " ++ message)
      | Return hostname =>
          let doc := Axios.load (Axios.data response) in
          let headers := Axios.headers response in
          let t := audit url response hostname in
          let present h := JS.truthy_opt (Axios.header headers h) in
          Return
            {| DimensionResult.score := Z.max (score t) 0;
               DimensionResult.grade := getGrade (score t);
               DimensionResult.issues := issues t;
               DimensionResult.recommendations :=
                 recommend (isHTTPS url) headers (viewportMeta doc)
                           (unsafeExternalLinks doc hostname);
               DimensionResult.details :=
                 {| Details.isHTTPS := isHTTPS url;
                    Details.hasViewport := JS.truthy_opt (viewportMeta doc);
                    Details.hasFavicon := favicon doc;
                    Details.securityHeaders :=
                      {| Details.contentTypeOptions := present "x-content-type-options";
                         Details.frameOptions := present "x-frame-options";
                         Details.xssProtection := present "x-xss-protection";
                         Details.hsts := present "strict-transport-security" |};
                    Details.externalLinksCount := List.length (externalLinks doc hostname);
                    Details.unsafeExternalLinks := unsafeExternalLinks doc hostname;
                    Details.deprecatedElements := deprecatedElements doc;
                    Details.inlineStyles := inlineStyles doc;
                    Details.inlineScripts := inlineScripts doc |} |}
      end
  end.

End bestPracticesService.

(** ** services/performanceService.js

    [analyzePerformance] and its [getGrade] (src/unnamed/part_000). *)

Module performanceService.

Module Details.
Record Metrics : Type := mkMetrics {
  loadTime : Z;
  pageSize : Z;
  hasCompression : bool;
  hasCaching : bool;
  hasCDN : bool;
  responseTime : Z
}.
Record CoreWebVitals : Type := mkCoreWebVitals {
  lcp : string;
  fid : string;
  cls : string
}.
(** The result carries [metrics] and [coreWebVitals] where the other
    dimensions carry [details]. *)
Record t : Type := mk { metrics : Metrics; coreWebVitals : CoreWebVitals }.
End Details.

Definition getGrade (score : Z) : Grade.t :=
  if score >=? 90 then Grade.A
  else if score >=? 80 then Grade.B
  else if score >=? 70 then Grade.C
  else if score >=? 60 then Grade.D
  else Grade.F.

(** Analyze load time *)
Definition checkLoadTime (loadTime : Z) (t : Tally) : Tally :=
  if loadTime >? 3000 then
    flag {| type := error;
            message := "Slow page load time: " ++ JS.show loadTime ++ "ms";
            impact := high |} 20 t
  else if loadTime >? 1500 then
    flag {| type := warning;
            message := "Moderate page load time: " ++ JS.show loadTime ++ "ms";
            impact := medium |} 10 t
  else t.

(** Analyze content size *)
Definition sizeInKB (contentSize : N) : Z :=
  JS.Math_round (inject_Z (Z.of_N contentSize) / inject_Z 1024).

Definition checkSize (sizeInKB : Z) (t : Tally) : Tally :=
  if sizeInKB >? 1000 then
    flag {| type := warning;
            message := "Large page size: " ++ JS.show sizeInKB ++ "KB";
            impact := medium |} 15 t
  else t.

(** Check for compression *)
Definition checkCompression (headers : Axios.Headers) (t : Tally) : Tally :=
  if negb (JS.truthy_opt (Axios.header headers "content-encoding")) then
    flag {| type := warning; message := "No compression detected"; impact := medium |} 10 t
  else t.

(** Check for caching headers *)
Definition checkCaching (headers : Axios.Headers) (t : Tally) : Tally :=
  if negb (JS.truthy_opt (Axios.header headers "cache-control"))
     && negb (JS.truthy_opt (Axios.header headers "expires")) then
    flag {| type := warning; message := "No caching headers found"; impact := medium |} 8 t
  else t.

(** Check for CDN (basic check) *)
Definition cdnHeaders : list string := [ "cloudflare"; "cloudfront"; "fastly"; "maxcdn" ].

Definition hasCDN (headers : Axios.Headers) : bool :=
  let server := JS.or_else (Axios.header headers "server") "" in
  existsb (fun cdn => JS.includes (JS.toLowerCase server) cdn) cdnHeaders.

Definition checkCDN (hasCDN : bool) (t : Tally) : Tally :=
  if negb hasCDN then
    flag {| type := info;
            message := "Consider using a CDN for better performance";
            impact := low |} 5 t
  else t.

(** Generate recommendations *)
Definition recommend (loadTime sizeInKB : Z) : list string :=
  let r := [] in
  let r := if loadTime >? 1500 then
             (r ++ [ "Optimize images and reduce file sizes";
                     "Enable compression (gzip/brotli)";
                     "Minimize HTTP requests" ])%list
           else r in
  pushIf (sizeInKB >? 500) "Reduce page size by optimizing assets" r.

(** The running tally after all checks, in the order of the code. *)
Definition audit (response : Axios.Response) (loadTime : Z) : Tally :=
  let headers := Axios.headers response in
  let t := start in
  let t := checkLoadTime loadTime t in
  let t := checkSize (sizeInKB (Axios.byteLength (Axios.data response))) t in
  let t := checkCompression headers t in
  let t := checkCaching headers t in
  checkCDN (hasCDN headers) t.

(** [loadTime] is [Date.now() - startTime], measured around the request. *)
Definition analyzePerformance (url : string) (get : Axios.Outcome) (loadTime : Z)
  : Throws (DimensionResult.t Details.t) :=
  match get with
  | Axios.Rejected message => Throw ("Performance analysis failed: " ++ message)
  | Axios.Resolved response =>
      let headers := Axios.headers response in
      let sizeInKB := sizeInKB (Axios.byteLength (Axios.data response)) in
      let t := audit response loadTime in
      Return
        {| DimensionResult.score := Z.max (score t) 0;
           DimensionResult.grade := getGrade (score t);
           DimensionResult.issues := issues t;
           DimensionResult.recommendations := recommend loadTime sizeInKB;
           DimensionResult.details :=
             {| Details.metrics :=
                  {| Details.loadTime := loadTime;
                     Details.pageSize := sizeInKB;
                     Details.hasCompression :=
                       JS.truthy_opt (Axios.header headers "content-encoding");
                     Details.hasCaching :=
                       JS.truthy_opt (Axios.header headers "cache-control")
                       || JS.truthy_opt (Axios.header headers "expires");
                     Details.hasCDN := hasCDN headers;
                     Details.responseTime := loadTime |};
                Details.coreWebVitals :=
                  {| Details.lcp := if loadTime <? 2500 then "good"
                                    else if loadTime <? 4000 then "needs-improvement"
                                    else "poor";
                     Details.fid := "good";
                     Details.cls := "good" |} |} |}
  end.

End performanceService.

(** ** services/accessibilityService.js

    [analyzeAccessibility] and its [getGrade] (src/server.js, lines 54 to 233). *)

Module accessibilityService.
Import Cheerio.

Module Details.
Record t : Type := mk {
  totalImages : nat;
  imagesWithoutAlt : nat;
  headingCount : nat;
  inputsWithoutLabels : nat;
  hasLanguageAttribute : bool;
  landmarkCount : nat;
  skipLinksCount : nat
}.
End Details.

Definition getGrade (score : Z) : Grade.t :=
  if score >=? 90 then Grade.A
  else if score >=? 80 then Grade.B
  else if score >=? 70 then Grade.C
  else if score >=? 60 then Grade.D
  else Grade.F.

(** Check for alt text on images *)
Definition imagesWithoutAlt (doc : document) : nat :=
  List.length (select doc (and_ (tag "img") (not_ (hasAttr "alt")))).

Definition totalImages (doc : document) : nat := List.length (select doc (tag "img")).

Definition checkImages (imagesWithoutAlt totalImages : nat) (t : Tally) : Tally :=
  if (0 <? imagesWithoutAlt)%nat then
    flag {| type := error;
            message := JS.show_nat imagesWithoutAlt ++ " of " ++ JS.show_nat totalImages
                       ++ " images missing alt text";
            impact := high |}
         (Z.min (Z.of_nat imagesWithoutAlt * 3) 20) t
  else t.

(** Check for proper heading structure.  The heading checks thread a
    third local, [let headingIssues = 0]. *)
Definition headings (doc : document) : list node :=
  select doc (anyOf [ tag "h1"; tag "h2"; tag "h3"; tag "h4"; tag "h5"; tag "h6" ]).

Definition h1Count (doc : document) : nat := List.length (select doc (tag "h1")).

(** Check if H1 exists *)
Definition checkH1 (h1Count : nat) (s : nat * Tally) : nat * Tally :=
  let (headingIssues, t) := s in
  if (h1Count =? 0)%nat then
    (S headingIssues,
     flag {| type := error; message := "Missing H1 heading"; impact := high |} 15 t)
  else s.

(** Check for heading hierarchy: the body of the [each] callback, on
    the locals [headingIssues] and [previousLevel]. *)
Definition visit (s : nat * option Z) (el : node) : nat * option Z :=
  let (headingIssues, previousLevel) := s in
  let level := JS.parseInt (JS.charAt (tagName el) 1) in
  let headingIssues :=
    if JS.gt level (JS.plus previousLevel 1) && JS.strict_neq previousLevel 0
    then S headingIssues else headingIssues in
  (headingIssues, level).

Definition walk (headings : list node) (headingIssues : nat) : nat :=
  fst (fold_left visit headings (headingIssues, Some 0)).

Definition checkHierarchy (headingIssues : nat) (t : Tally) : Tally :=
  if (1 <? headingIssues)%nat then
    flag {| type := warning; message := "Improper heading hierarchy"; impact := medium |}
         10 t
  else t.

(** [headingIssues] after the H1 check and the walk. *)
Definition headingIssues (doc : document) : nat :=
  walk (headings doc) (fst (checkH1 (h1Count doc) (0%nat, start))).

(** Check for form labels.  The callback interpolates the id into
    [label[for="<id>"]], read here as equality of the [for]
    attribute with the id. *)
Definition inputsWithoutLabels (doc : document) : nat :=
  List.length
    (filter
       (fun el =>
          match attrOf el "id" with
          | Some id =>
              negb (JS.truthy id)
              || (List.length (select doc (and_ (tag "label") (attrIs "for" id))) =? 0)%nat
          | None => true
          end)
       (select doc
          (and_ (tag "input")
             (and_ (not_ (attrIs "type" "hidden"))
                (and_ (not_ (hasAttr "aria-label")) (not_ (hasAttr "aria-labelledby"))))))).

Definition checkLabels (inputsWithoutLabels : nat) (t : Tally) : Tally :=
  if (0 <? inputsWithoutLabels)%nat then
    flag {| type := error;
            message := JS.show_nat inputsWithoutLabels ++ " form inputs missing labels";
            impact := high |}
         (Z.of_nat inputsWithoutLabels * 5) t
  else t.

(** Check for color contrast (basic check for inline styles) *)
Definition elementsWithInlineColors (doc : document) : nat :=
  List.length (select doc (attrContains "style" "color")).

Definition checkContrast (elementsWithInlineColors : nat) (t : Tally) : Tally :=
  if (0 <? elementsWithInlineColors)%nat then
    flag {| type := warning;
            message := "Elements with inline colors detected - check contrast ratios";
            impact := medium |} 5 t
  else t.

(** Check for keyboard navigation support *)
Definition focusableElements (doc : document) : nat :=
  List.length
    (select doc
       (anyOf [ tag "a"; tag "button"; tag "input"; tag "select"; tag "textarea";
                hasAttr "tabindex" ])).

Definition elementsWithTabindex (doc : document) : nat :=
  List.length (select doc (hasAttr "tabindex")).

Definition checkKeyboard (focusableElements elementsWithTabindex : nat) (t : Tally) : Tally :=
  if (0 <? focusableElements)%nat && (elementsWithTabindex =? 0)%nat then
    flag {| type := info;
            message := "Consider adding proper tab navigation order";
            impact := low |} 3 t
  else t.

(** Check for ARIA landmarks *)
Definition landmarks (doc : document) : nat :=
  List.length
    (select doc
       (anyOf [ attrIs "role" "main"; attrIs "role" "navigation"; attrIs "role" "banner";
                attrIs "role" "contentinfo";
                tag "main"; tag "nav"; tag "header"; tag "footer" ])).

Definition checkLandmarks (landmarks : nat) (t : Tally) : Tally :=
  if (landmarks =? 0)%nat then
    flag {| type := warning;
            message := "No ARIA landmarks or semantic HTML5 elements found";
            impact := medium |} 8 t
  else t.

(** Check for language attribute *)
Definition htmlLang (doc : document) : option string :=
  attr (select doc (tag "html")) "lang".

Definition checkLanguage (htmlLang : option string) (t : Tally) : Tally :=
  if negb (JS.truthy_opt htmlLang) then
    flag {| type := warning;
            message := "Missing language attribute on HTML element";
            impact := medium |} 7 t
  else t.

(** Check for skip links *)
Definition skipLinks (doc : document) : nat :=
  List.length
    (filter
       (fun el =>
          let text := JS.toLowerCase (textOf el) in
          JS.includes text "skip" || JS.includes text "jump")
       (select doc (and_ (tag "a") (attrBegins "href" "#")))).

Definition checkSkipLinks (skipLinks : nat) (t : Tally) : Tally :=
  if (skipLinks =? 0)%nat then
    flag {| type := info; message := "No skip navigation links found"; impact := low |} 3 t
  else t.

(** Generate recommendations; the arrows of the third one are written
    in UTF-8. *)
Definition recommend (imagesWithoutAlt inputsWithoutLabels headingIssues : nat)
  : list string :=
  let r := [] in
  let r := pushIf (0 <? imagesWithoutAlt)%nat "Add descriptive alt text to all images" r in
  let r := pushIf (0 <? inputsWithoutLabels)%nat
                  "Associate all form inputs with proper labels" r in
  let r := pushIf (0 <? headingIssues)%nat
                  "Fix heading hierarchy (H1 → H2 → H3, etc.)" r in
  let r := (r ++ [ "Test with screen readers and keyboard navigation" ])%list in
  (r ++ [ "Ensure sufficient color contrast (4.5:1 for normal text)" ])%list.

(** The running tally after all checks, in the order of the code. *)
Definition audit (doc : document) : Tally :=
  let t := start in
  let t := checkImages (imagesWithoutAlt doc) (totalImages doc) t in
  let (headingIssues, t) := checkH1 (h1Count doc) (0%nat, t) in
  let headingIssues := walk (headings doc) headingIssues in
  let t := checkHierarchy headingIssues t in
  let t := checkLabels (inputsWithoutLabels doc) t in
  let t := checkContrast (elementsWithInlineColors doc) t in
  let t := checkKeyboard (focusableElements doc) (elementsWithTabindex doc) t in
  let t := checkLandmarks (landmarks doc) t in
  let t := checkLanguage (htmlLang doc) t in
  checkSkipLinks (skipLinks doc) t.

Definition analyzeAccessibility (url : string) (get : Axios.Outcome)
  : Throws (DimensionResult.t Details.t) :=
  match get with
  | Axios.Rejected message => Throw ("Accessibility analysis failed: " ++ message)
  | Axios.Resolved response =>
      let doc := Axios.load (Axios.data response) in
      let t := audit doc in
      Return
        {| DimensionResult.score := Z.max (score t) 0;
           DimensionResult.grade := getGrade (score t);
           DimensionResult.issues := issues t;
           DimensionResult.recommendations :=
             recommend (imagesWithoutAlt doc) (inputsWithoutLabels doc) (headingIssues doc);
           DimensionResult.details :=
             {| Details.totalImages := totalImages doc;
                Details.imagesWithoutAlt := imagesWithoutAlt doc;
                Details.headingCount := List.length (headings doc);
                Details.inputsWithoutLabels := inputsWithoutLabels doc;
                Details.hasLanguageAttribute := JS.truthy_opt (htmlLang doc);
                Details.landmarkCount := landmarks doc;
                Details.skipLinksCount := skipLinks doc |} |}
  end.

End accessibilityService.

(** ** services/auditService.js

    [runFullAudit] and its [getGrade] (src/server.js, lines 233 to 310). *)

Module auditService.

(** What a slot of the report holds: an analyzer's result, or the record
    [{ error: err.message, score: 0 }] that the [catch] handler puts in
    its place; that record has no other field. *)
Module Dimension.
Inductive t (D : Type) : Type :=
| Populated (result : DimensionResult.t D)
| Placeholder (error : string) (score : Z).
Arguments Populated {D}.
Arguments Placeholder {D}.

(** [d.score] *)
Definition score {D : Type} (d : t D) : Z :=
  match d with
  | Populated r => DimensionResult.score r
  | Placeholder _ s => s
  end.

(** [d.issues], [undefined] on the placeholder. *)
Definition issues {D : Type} (d : t D) : option (list Issue) :=
  match d with
  | Populated r => Some (DimensionResult.issues r)
  | Placeholder _ _ => None
  end.

(** [d.recommendations], [undefined] on the placeholder. *)
Definition recommendations {D : Type} (d : t D) : option (list string) :=
  match d with
  | Populated r => Some (DimensionResult.recommendations r)
  | Placeholder _ _ => None
  end.

(** [d.details] ([metrics] and [coreWebVitals] for performance),
    [undefined] on the placeholder. *)
Definition details {D : Type} (d : t D) : option D :=
  match d with
  | Populated r => Some (DimensionResult.details r)
  | Placeholder _ _ => None
  end.

(** [d.error], [undefined] on a result. *)
Definition error {D : Type} (d : t D) : option string :=
  match d with
  | Populated _ => None
  | Placeholder e _ => Some e
  end.
End Dimension.

(** [promise.catch(err => ({ error: err.message, score: 0 }))] *)
Definition catch {D : Type} (p : Throws (DimensionResult.t D)) : Dimension.t D :=
  match p with
  | Return r => Dimension.Populated r
  | Throw message => Dimension.Placeholder message 0
  end.

(** [x || 0] on a number. *)
Definition or0 (x : Z) : Z := if x =? 0 then 0 else x.

(** [issues?.length || 0] *)
Definition lengthOr0 (issues : option (list Issue)) : nat :=
  match issues with
  | Some l => if (List.length l =? 0)%nat then 0%nat else List.length l
  | None => 0%nat
  end.

Definition getGrade (score : Z) : Grade.t :=
  if score >=? 90 then Grade.A
  else if score >=? 80 then Grade.B
  else if score >=? 70 then Grade.C
  else if score >=? 60 then Grade.D
  else Grade.F.

Module Overall.
Record t : Type := mk { score : Z; grade : Grade.t; timestamp : string }.
End Overall.

Module Summary.
Record t : Type := mk {
  totalIssues : nat;
  criticalIssues : nat;
  recommendations : list string
}.
End Summary.

Module AuditResults.
Record t : Type := mk {
  overall : Overall.t;
  seo : Dimension.t seoService.Details.t;
  performance : Dimension.t performanceService.Details.t;
  accessibility : Dimension.t accessibilityService.Details.t;
  bestPractices : Dimension.t bestPracticesService.Details.t;
  summary : Summary.t
}.
End AuditResults.

(** What the outside world answers during one audit: the outcome of the
    request each analyzer sends, the time measured around the
    performance request, the host name of the URL, and the clock read
    for the time stamp. *)
Module World.
Record t : Type := mk {
  seoGet : Axios.Outcome;
  performanceGet : Axios.Outcome;
  loadTime : Z;
  accessibilityGet : Axios.Outcome;
  bestPracticesGet : Axios.Outcome;
  hostname : Throws string;
  now : string
}.
End World.

(** Calculate overall score *)
Definition overallScore (scores : list Z) : Z :=
  JS.Math_round
    (inject_Z (fold_left (fun a b => a + b) scores 0)
     / inject_Z (Z.of_nat (List.length scores))).

Definition runFullAudit (url : string) (w : World.t) : Throws AuditResults.t :=
  let seoResults := catch (seoService.analyzeSEO url (World.seoGet w)) in
  let performanceResults :=
    catch (performanceService.analyzePerformance url (World.performanceGet w)
             (World.loadTime w)) in
  let accessibilityResults :=
    catch (accessibilityService.analyzeAccessibility url (World.accessibilityGet w)) in
  let bestPracticesResults :=
    catch (bestPracticesService.analyzeBestPractices url (World.bestPracticesGet w)
             (World.hostname w)) in
  let scores :=
    [ or0 (Dimension.score seoResults);
      or0 (Dimension.score performanceResults);
      or0 (Dimension.score accessibilityResults);
      or0 (Dimension.score bestPracticesResults) ] in
  let overallScore := overallScore scores in
  Return
    {| AuditResults.overall :=
         {| Overall.score := overallScore;
            Overall.grade := getGrade overallScore;
            Overall.timestamp := World.now w |};
       AuditResults.seo := seoResults;
       AuditResults.performance := performanceResults;
       AuditResults.accessibility := accessibilityResults;
       AuditResults.bestPractices := bestPracticesResults;
       AuditResults.summary :=
         {| Summary.totalIssues :=
              (lengthOr0 (Dimension.issues seoResults)
               + lengthOr0 (Dimension.issues performanceResults)
               + lengthOr0 (Dimension.issues accessibilityResults)
               + lengthOr0 (Dimension.issues bestPracticesResults))%nat;
            Summary.criticalIssues := 0%nat;
            Summary.recommendations := [] |} |}.

End auditService.

(** ** Vocabulary of the properties *)

(** The grading function of the specification, as the relation between
    a score and its letter: 90 and above is A, 80 and above is B, 70 and
    above is C, 60 and above is D, anything below is F. *)
Definition graded (score : Z) (g : Grade.t) : Prop :=
  match g with
  | Grade.A => 90 <= score
  | Grade.B => 80 <= score < 90
  | Grade.C => 70 <= score < 80
  | Grade.D => 60 <= score < 70
  | Grade.F => score < 60
  end.

(** A reported score within bounds, with the letter of that very score. *)
Definition well_scored {D : Type} (r : DimensionResult.t D) : Prop :=
  0 <= DimensionResult.score r <= 100
  /\ graded (DimensionResult.score r) (DimensionResult.grade r).

(** What a check takes off the score and what it appends to the issues,
    read off its run on the initial tally. *)
Definition deduction (check : Tally -> Tally) : Z := score start - score (check start).

Definition emitted (check : Tally -> Tally) : list Issue := issues (check start).

(** A check is uniform when it does the same on every tally. *)
Definition uniform (check : Tally -> Tally) : Prop :=
  forall t, check t = {| issues := issues t ++ emitted check;
                         score := score t - deduction check |}.

Definition Issue_eq_dec (x y : Issue) : {x = y} + {x <> y}.
Proof.
  decide equality; try apply string_dec; decide equality.
Defined.

(** How many times an issue occurs in a list. *)
Definition occurrences (i : Issue) (l : list Issue) : nat := count_occ Issue_eq_dec l i.

(** A title text made of white space only. *)
Definition blank (s : string) : Prop :=
  forall c, In c (list_ascii_of_string s) -> JS.isWhiteSpace c = true.

(** The conditions of the accessibility scenario: a [lang] on [html],
    exactly one H1, no image without [alt], no input without a label,
    at least one landmark and at least one skip link. *)
Definition accessibleScenario (doc : Cheerio.document) : Prop :=
  (exists lang, accessibilityService.htmlLang doc = Some lang)
  /\ accessibilityService.h1Count doc = 1%nat
  /\ accessibilityService.imagesWithoutAlt doc = 0%nat
  /\ accessibilityService.inputsWithoutLabels doc = 0%nat
  /\ (0 < accessibilityService.landmarks doc)%nat
  /\ (0 < accessibilityService.skipLinks doc)%nat.

(** The conditions of the SEO scenario: no title tag, no meta
    description, no H1 and exactly 3 images without [alt]. *)
Definition bareScenario (doc : Cheerio.document) : Prop :=
  Cheerio.select doc (Cheerio.tag "title") = []
  /\ Cheerio.select doc
       (Cheerio.and_ (Cheerio.tag "meta") (Cheerio.attrIs "name" "description")) = []
  /\ seoService.h1Tags doc = []
  /\ seoService.imagesWithoutAlt doc = 3%nat.

(** An analyzer's outcome is a result with the given score. *)
Definition scores {D : Type} (p : Throws (DimensionResult.t D)) (s : Z) : Prop :=
  exists r, p = Return r /\ DimensionResult.score r = s.

(** ** Sample pages *)

Module Sample.
Import Cheerio.

(** A response with the given parsed body and no header. *)
Definition respond (doc : document) : Axios.Response :=
  {| Axios.data := {| Axios.byteLength := 2048; Axios.load := doc |};
     Axios.headers := [] |}.

Definition page (htmlAttribs : list (string * string)) (head body : list node) : document :=
  [ Element "html" htmlAttribs [ Element "head" [] head; Element "body" [] body ] ].

Definition img (src : string) : node := Element "img" [ ("src", src) ] [].

(** No title, no meta description, no H1, three images without [alt]. *)
Definition bare : document :=
  page [] [] [ img "a.png"; img "b.png"; img "c.png" ].

(** The same page with a canonical link and both Open Graph tags. *)
Definition bareLinked : document :=
  page []
    [ Element "link" [ ("rel", "canonical"); ("href", "https://example.com/") ] [];
      Element "meta" [ ("property", "og:title"); ("content", "Example") ] [];
      Element "meta" [ ("property", "og:description"); ("content", "An example page") ] [] ]
    [ img "a.png"; img "b.png"; img "c.png" ].

(** A title of a space, a line feed and a tab. *)
Definition blankTitle : document :=
  page [ ("lang", "en") ]
    [ Element "title" [] [ Text (String " " (String "010" (String "009" EmptyString))) ] ]
    [ Element "h1" [] [ Text "Welcome" ] ].

End Sample.

(** ** Vocabulary of the heading hierarchy *)

(** The level of a heading element: 1 for [h1] up to 6 for [h6]. *)
Definition level (el : Cheerio.node) : Z :=
  let t := Cheerio.tagName el in
  if String.eqb t "h1" then 1
  else if String.eqb t "h2" then 2
  else if String.eqb t "h3" then 3
  else if String.eqb t "h4" then 4
  else if String.eqb t "h5" then 5
  else if String.eqb t "h6" then 6
  else 0.

(** The number of headings whose level exceeds the level of the heading
    before them by more than 1. *)
Fixpoint breaks (levels : list Z) : nat :=
  match levels with
  | previous :: rest =>
      match rest with
      | current :: _ =>
          if previous + 1 <? current then S (breaks rest) else breaks rest
      | [] => 0%nat
      end
  | [] => 0%nat
  end.

Module SampleHeadings.
Import Cheerio.

Definition heading (tag text : string) : node := Element tag [] [ Text text ].

(** An H1 followed by an H3: one break of the hierarchy. *)
Definition oneBreak : document :=
  Sample.page [ ("lang", "en") ] []
    [ heading "h1" "Guide"; heading "h3" "Details" ].

(** No H1, and an H2 followed by an H4: the counter reaches 2. *)
Definition noH1OneBreak : document :=
  Sample.page [ ("lang", "en") ] []
    [ heading "h2" "Guide"; heading "h4" "Details" ].

End SampleHeadings.

Module SampleAccessibility.
Import Cheerio.

(** The body shared by the pages below: a skip link with the given
    attributes, and a [main] landmark with one H1, an image with [alt],
    a labelled input and whatever else is given. *)
Definition body (skipAttribs : list (string * string)) (more : list node) : list node :=
  [ Element "a" (("href", "#main") :: skipAttribs) [ Text "Skip to content" ];
    Element "main" [ ("id", "main") ]
      (Element "h1" [] [ Text "Welcome" ]
       :: Element "img" [ ("src", "logo.png"); ("alt", "Logo") ] []
       :: Element "label" [ ("for", "q") ] [ Text "Search" ]
       :: Element "input" [ ("id", "q"); ("type", "text") ] []
       :: more) ].

Definition head : list node := [ Element "title" [] [ Text "Home" ] ].

(** Everything the scenario asks for, and no [tabindex] anywhere. *)
Definition plain : document := Sample.page [ ("lang", "en") ] head (body [] []).

(** The same page with a [tabindex] on the skip link. *)
Definition tabbed : document :=
  Sample.page [ ("lang", "en") ] head (body [ ("tabindex", "0") ] []).

(** [tabbed] with a paragraph coloured inline. *)
Definition coloured : document :=
  Sample.page [ ("lang", "en") ] head
    (body [ ("tabindex", "0") ] [ Element "p" [ ("style", "color: red") ] [ Text "Sale" ] ]).

(** [tabbed] with an H3 and an H5 after the H1: two breaks. *)
Definition jumpy : document :=
  Sample.page [ ("lang", "en") ] head
    (body [ ("tabindex", "0") ]
       [ Element "h3" [] [ Text "Details" ]; Element "h5" [] [ Text "Notes" ] ]).

(** [tabbed] with an empty [lang]. *)
Definition emptyLang : document :=
  Sample.page [ ("lang", "") ] head (body [ ("tabindex", "0") ] []).

End SampleAccessibility.

Module SampleLinks.
Import Cheerio.

Definition link (attribs : list (string * string)) : node := Element "a" attribs [ Text "link" ].

(** A page of example.com with four links: one to another site with
    [rel="noopener"] only, one to another site with both tokens, one
    to the site itself, and one to another site without [rel]. *)
Definition mixed : document :=
  Sample.page [ ("lang", "en") ] []
    [ link [ ("href", "https://other.org/"); ("rel", "noopener") ];
      link [ ("href", "https://partner.net/"); ("rel", "noopener noreferrer") ];
      link [ ("href", "https://example.com/about") ];
      link [ ("href", "https://third.io/") ] ].

End SampleLinks.

(** ** Vocabulary of the aggregation *)

(** What a dimension contributes to the mean: its reported score, or 0
    when its analysis failed. *)
Definition contribution {D : Type} (p : Throws (DimensionResult.t D)) : Z :=
  match p with
  | Return r => DimensionResult.score r
  | Throw _ => 0
  end.

(** The issues a dimension counts for: those of its result, none when
    its analysis failed. *)
Definition found {D : Type} (p : Throws (DimensionResult.t D)) : nat :=
  match p with
  | Return r => List.length (DimensionResult.issues r)
  | Throw _ => 0%nat
  end.

Definition failed {R : Type} (p : Throws R) : bool :=
  match p with
  | Return _ => false
  | Throw _ => true
  end.

Definition isPlaceholder {D : Type} (d : auditService.Dimension.t D) : bool :=
  match d with
  | auditService.Dimension.Populated _ => false
  | auditService.Dimension.Placeholder _ _ => true
  end.

(** How many of the given flags are raised. *)
Definition raised (flags : list bool) : nat := List.length (filter (fun b => b) flags).

(** The slot of the report for an analysis run alone: its result as it
    is, or the placeholder with the message, score 0 and no issues,
    recommendations or details. *)
Definition reported {D : Type} (p : Throws (DimensionResult.t D))
  (d : auditService.Dimension.t D) : Prop :=
  match p with
  | Return r => d = auditService.Dimension.Populated r
  | Throw message =>
      d = auditService.Dimension.Placeholder message 0
      /\ auditService.Dimension.issues d = None
      /\ auditService.Dimension.recommendations d = None
      /\ auditService.Dimension.details d = None
  end.

(** The arithmetic mean of the scores. *)
Definition mean (scores : list Z) : Q :=
  inject_Z (fold_right Z.add 0 scores) / inject_Z (Z.of_nat (List.length scores)).

(** [z] is [q] rounded: the integer nearest to [q], the upper one of the
    two when [q] lies halfway between them. *)
Definition rounded (q : Q) (z : Z) : Prop :=
  (q - (1 # 2) < inject_Z z /\ inject_Z z <= q + (1 # 2))%Q.

Module SampleWorld.

(** Twenty-five inputs without a label and nothing else. *)
Definition unlabelled : Cheerio.document :=
  Sample.page [] [] (repeat (Cheerio.Element "input" [] []) 25).

Definition timeout : string := "timeout of 10000ms exceeded".

Definition clock : string := "2024-01-01T00:00:00.000Z".

(** Every request times out. *)
Definition allDown : auditService.World.t :=
  {| auditService.World.seoGet := Axios.Rejected timeout;
     auditService.World.performanceGet := Axios.Rejected "timeout of 15000ms exceeded";
     auditService.World.loadTime := 15000;
     auditService.World.accessibilityGet := Axios.Rejected timeout;
     auditService.World.bestPracticesGet := Axios.Rejected timeout;
     auditService.World.hostname := Return "example.com";
     auditService.World.now := clock |}.

(** The performance request times out, the three others get the page
    [SampleAccessibility.plain]. *)
Definition performanceDown : auditService.World.t :=
  {| auditService.World.seoGet := Axios.Resolved (Sample.respond SampleAccessibility.plain);
     auditService.World.performanceGet := Axios.Rejected "timeout of 15000ms exceeded";
     auditService.World.loadTime := 15000;
     auditService.World.accessibilityGet :=
       Axios.Resolved (Sample.respond SampleAccessibility.plain);
     auditService.World.bestPracticesGet :=
       Axios.Resolved (Sample.respond SampleAccessibility.plain);
     auditService.World.hostname := Return "example.com";
     auditService.World.now := clock |}.

(** Every request gets the page [SampleAccessibility.plain], 1600 ms
    after the performance request was sent. *)
Definition allUp : auditService.World.t :=
  {| auditService.World.seoGet := Axios.Resolved (Sample.respond SampleAccessibility.plain);
     auditService.World.performanceGet :=
       Axios.Resolved (Sample.respond SampleAccessibility.plain);
     auditService.World.loadTime := 1600;
     auditService.World.accessibilityGet :=
       Axios.Resolved (Sample.respond SampleAccessibility.plain);
     auditService.World.bestPracticesGet :=
       Axios.Resolved (Sample.respond SampleAccessibility.plain);
     auditService.World.hostname := Return "example.com";
     auditService.World.now := clock |}.

End SampleWorld.

(** ** utils/validators.js

    [validateUrl], [sanitizeUrl] and [extractDomain] (src/utils/validators.js). *)

Module validators.

(** What the services read off [new URL(s)]: the protocol and the host
    name of the address. *)
Record URL : Type := { protocol : string; hostname : string }.

(** What a request body may hold under [url]: nothing, a string, or a
    value of another type. *)
Inductive value : Type :=
| undefined
| text (s : string)
| other.

Section parser.

(** [new URL(s)]: the parsed address, or the [TypeError] it throws. *)
Variable parse : string -> Throws URL.

Definition validateUrl (url : value) : bool :=
  match url with
  | text s =>
      if negb (JS.truthy s) then false
      else
        match parse s with
        | Return urlObj =>
            String.eqb (protocol urlObj) "http:" || String.eqb (protocol urlObj) "https:"
        | Throw _ => false
        end
  | undefined => false
  | other => false
  end.

Definition extractDomain (url : string) : string :=
  match parse url with
  | Return urlObj => hostname urlObj
  | Throw _ => ""
  end.

End parser.

Definition sanitizeUrl (url : string) : string :=
  if negb (JS.truthy url) then ""
  else
    let url := JS.trim url in
    if negb (JS.startsWith url "http://") && negb (JS.startsWith url "https://")
    then "https://" ++ url
    else url.

End validators.

(** ** routes/audit.js, routes/performance.js and routes/seo.js

    The three [POST] handlers (src/routes/audit.js). *)

Module routes.

(** What a handler sends: [res.status(s).json({ error, message })], or
    [res.json({ success: true, url, timestamp, <key>: payload })] with
    the default status 200. *)
Inductive Reply (R : Type) : Type :=
| failure (status : nat) (error message : string)
| success (url timestamp : string) (payload : R).

Arguments failure {R}.
Arguments success {R}.

Definition status {R : Type} (r : Reply R) : nat :=
  match r with
  | failure s _ _ => s
  | success _ _ _ => 200%nat
  end.

(** The string a validated [url] is. *)
Definition stringOf (url : validators.value) : string :=
  match url with
  | validators.text s => s
  | validators.undefined => ""
  | validators.other => ""
  end.

Section handlers.

Variable parse : string -> Throws validators.URL.

(** The world of an audit of [url]: the host name the best-practices
    analyzer reads is the one [new URL(url)] gives. *)
Definition located (url : string) (w : auditService.World.t) : auditService.World.t :=
  {| auditService.World.seoGet := auditService.World.seoGet w;
     auditService.World.performanceGet := auditService.World.performanceGet w;
     auditService.World.loadTime := auditService.World.loadTime w;
     auditService.World.accessibilityGet := auditService.World.accessibilityGet w;
     auditService.World.bestPracticesGet := auditService.World.bestPracticesGet w;
     auditService.World.hostname :=
       match parse url with
       | Return urlObj => Return (validators.hostname urlObj)
       | Throw message => Throw message
       end;
     auditService.World.now := auditService.World.now w |}.

(** [router.post('/run', ...)] of routes/audit.js; [now] is the clock
    read for the reply. *)
Definition run (url : validators.value) (w : auditService.World.t) (now : string)
  : Reply auditService.AuditResults.t :=
  if negb (validators.validateUrl parse url) then
    failure 400 "Invalid URL" "Please provide a valid website URL"
  else
    let url := stringOf url in
    match auditService.runFullAudit url (located url w) with
    | Return auditResults => success url now auditResults
    | Throw message => failure 500 "Audit failed" message
    end.

(** [router.post('/analyze', ...)] of routes/seo.js *)
Definition seoAnalyze (url : validators.value) (get : Axios.Outcome) (now : string)
  : Reply (DimensionResult.t seoService.Details.t) :=
  if negb (validators.validateUrl parse url) then
    failure 400 "Invalid URL" "Please provide a valid website URL"
  else
    let url := stringOf url in
    match seoService.analyzeSEO url get with
    | Return seoResults => success url now seoResults
    | Throw message => failure 500 "SEO analysis failed" message
    end.

(** [router.post('/analyze', ...)] of routes/performance.js *)
Definition performanceAnalyze (url : validators.value) (get : Axios.Outcome)
  (loadTime : Z) (now : string) : Reply (DimensionResult.t performanceService.Details.t) :=
  if negb (validators.validateUrl parse url) then
    failure 400 "Invalid URL" "Please provide a valid website URL"
  else
    let url := stringOf url in
    match performanceService.analyzePerformance url get loadTime with
    | Return performanceResults => success url now performanceResults
    | Throw message => failure 500 "Performance analysis failed" message
    end.

End handlers.

End routes.

(** ** Vocabulary of the further properties *)

(** A check either passes, emitting nothing and taking nothing off, or
    fires, emitting exactly one issue and taking a positive amount off. *)
Definition decisive (check : Tally -> Tally) : Prop :=
  (emitted check = [] /\ deduction check = 0)
  \/ ((exists i, emitted check = [i]) /\ 0 < deduction check).

(** The severity of an issue is coherent: an error has high impact, a
    high impact is an error's, and an information has low impact. *)
Definition coherent (i : Issue) : Prop :=
  (type i = error <-> impact i = high) /\ (type i = info -> impact i = low).

(** The sum of a list of deductions. *)
Definition totalOf (ds : list Z) : Z := fold_right Z.add 0 ds.

(** A list of checks run in order on the initial tally. *)
Definition runChecks (checks : list (Tally -> Tally)) : Tally :=
  fold_left (fun t check => check t) checks start.

(** The checks of each analyzer, in the order of its code. *)
Definition seoChecks (doc : Cheerio.document) : list (Tally -> Tally) :=
  [ seoService.checkTitle (seoService.title doc);
    seoService.checkMetaDescription (seoService.metaDescription doc);
    seoService.checkH1 (seoService.h1Tags doc);
    seoService.checkImages (seoService.imagesWithoutAlt doc);
    seoService.checkCanonical (seoService.canonical doc);
    seoService.checkOpenGraph (seoService.ogTitle doc) (seoService.ogDescription doc) ].

Definition performanceChecks (response : Axios.Response) (loadTime : Z)
  : list (Tally -> Tally) :=
  [ performanceService.checkLoadTime loadTime;
    performanceService.checkSize
      (performanceService.sizeInKB (Axios.byteLength (Axios.data response)));
    performanceService.checkCompression (Axios.headers response);
    performanceService.checkCaching (Axios.headers response);
    performanceService.checkCDN (performanceService.hasCDN (Axios.headers response)) ].

Definition accessibilityChecks (doc : Cheerio.document) : list (Tally -> Tally) :=
  [ accessibilityService.checkImages (accessibilityService.imagesWithoutAlt doc)
      (accessibilityService.totalImages doc);
    (fun t => snd (accessibilityService.checkH1 (accessibilityService.h1Count doc)
                     (0%nat, t)));
    accessibilityService.checkHierarchy (accessibilityService.headingIssues doc);
    accessibilityService.checkLabels (accessibilityService.inputsWithoutLabels doc);
    accessibilityService.checkContrast (accessibilityService.elementsWithInlineColors doc);
    accessibilityService.checkKeyboard (accessibilityService.focusableElements doc)
      (accessibilityService.elementsWithTabindex doc);
    accessibilityService.checkLandmarks (accessibilityService.landmarks doc);
    accessibilityService.checkLanguage (accessibilityService.htmlLang doc);
    accessibilityService.checkSkipLinks (accessibilityService.skipLinks doc) ].

(** The callback of the [forEach] over the security headers. *)
Definition checkSecurityHeader (headers : Axios.Headers) (header : string * string)
  (t : Tally) : Tally :=
  if negb (JS.truthy_opt (Axios.header headers (fst header))) then
    flag {| type := warning; message := snd header; impact := medium |} 5 t
  else t.

Definition bestPracticesChecks (url : string) (response : Axios.Response)
  (hostname : string) : list (Tally -> Tally) :=
  let doc := Axios.load (Axios.data response) in
  (bestPracticesService.checkHTTPS (bestPracticesService.isHTTPS url)
   :: map (checkSecurityHeader (Axios.headers response)) bestPracticesService.securityHeaders)
  ++ [ bestPracticesService.checkViewport (bestPracticesService.viewportMeta doc);
       bestPracticesService.checkFavicon (bestPracticesService.favicon doc);
       bestPracticesService.checkExternalLinks
         (bestPracticesService.unsafeExternalLinks doc hostname);
       bestPracticesService.checkMixedContent (bestPracticesService.isHTTPS url)
         (bestPracticesService.httpResources doc);
       bestPracticesService.checkDeprecated (bestPracticesService.deprecatedElements doc);
       bestPracticesService.checkInlineStyles (bestPracticesService.inlineStyles doc);
       bestPracticesService.checkInlineScripts (bestPracticesService.inlineScripts doc) ].

(** A parser for the samples: it knows two addresses. *)
Definition sampleParse (s : string) : Throws validators.URL :=
  if String.eqb s "https://example.com/" then
    Return {| validators.protocol := "https:"; validators.hostname := "example.com" |}
  else if String.eqb s "ftp://example.com/" then
    Return {| validators.protocol := "ftp:"; validators.hostname := "example.com" |}
  else Throw "Invalid URL".

(** Pages on which the analyzers take off all they can. *)
Module SampleFloor.
Import Cheerio.

(** Seven images without [alt], an H2 followed by an H4, one link
    coloured inline, and nothing else. *)
Definition inaccessible : document :=
  Sample.page [] []
    (repeat (Sample.img "a.png") 7
     ++ [ Element "h2" [] [ Text "News" ];
          Element "h4" [] [ Text "More" ];
          Element "a" [ ("href", "/next"); ("style", "color: red") ] [ Text "Next" ] ])%list.

(** Five links to another site without [rel], six inline styles, three
    inline scripts, no viewport and no favicon. *)
Definition careless : document :=
  Sample.page [] []
    (repeat (Element "a" [ ("href", "http://other.org/"); ("style", "margin: 0") ]
               [ Text "Other" ]) 5
     ++ [ Element "p" [ ("style", "margin: 0") ] [] ]
     ++ repeat (Element "script" [] [ Text "void 0" ]) 3)%list.

End SampleFloor.

(** * Properties of the scoring engine *)

(** ** Tallies and uniform checks *)

Lemma flag_uniform (i : Issue) (d : Z) : uniform (flag i d).
Proof.
  intros [l s]. unfold emitted, deduction, flag, start. cbn [issues score].
  f_equal; try reflexivity; lia.
Qed.

Lemma skip_uniform : uniform (fun t => t).
Proof.
  intros [l s]. unfold emitted, deduction, start. cbn [issues score].
  rewrite app_nil_r. f_equal. lia.
Qed.

Lemma uniform_score (check : Tally -> Tally) (t : Tally) :
  uniform check -> score (check t) = score t - deduction check.
Proof.
  intros U. rewrite (U t). reflexivity.
Qed.

Lemma uniform_issues (check : Tally -> Tally) (t : Tally) :
  uniform check -> issues (check t) = (issues t ++ emitted check)%list.
Proof.
  intros U. rewrite (U t). reflexivity.
Qed.

(** A check that is a cascade of conditions, each branch a [flag] or
    nothing, is uniform: decide the conditions, then conclude. *)
Ltac cascade :=
  repeat match goal with
         | |- context [if ?c then _ else _] => destruct c
         end;
  first [ apply flag_uniform | apply skip_uniform ].

(** ** The grading functions *)

Ltac thresholds :=
  repeat match goal with
         | |- context [?s >=? ?k] =>
             rewrite (Z.geb_leb s k); destruct (Z.leb_spec k s)
         end;
  simpl; lia.

Lemma seo_getGrade_graded (s : Z) : graded (Z.max s 0) (seoService.getGrade s).
Proof. unfold seoService.getGrade. thresholds. Qed.

Lemma performance_getGrade_graded (s : Z) :
  graded (Z.max s 0) (performanceService.getGrade s).
Proof. unfold performanceService.getGrade. thresholds. Qed.

Lemma accessibility_getGrade_graded (s : Z) :
  graded (Z.max s 0) (accessibilityService.getGrade s).
Proof. unfold accessibilityService.getGrade. thresholds. Qed.

Lemma bestPractices_getGrade_graded (s : Z) :
  graded (Z.max s 0) (bestPracticesService.getGrade s).
Proof. unfold bestPracticesService.getGrade. thresholds. Qed.

Lemma audit_getGrade_graded (s : Z) : graded s (auditService.getGrade s).
Proof. unfold auditService.getGrade. thresholds. Qed.

(** Every score has exactly one letter. *)
Lemma graded_unique (s : Z) (g g' : Grade.t) : graded s g -> graded s g' -> g = g'.
Proof.
  destruct g; destruct g'; cbn; intros; try reflexivity; lia.
Qed.

(** The five copies of [getGrade] are one and the same function. *)
Theorem getGrade_identical (s : Z) :
  seoService.getGrade s = auditService.getGrade s
  /\ performanceService.getGrade s = auditService.getGrade s
  /\ accessibilityService.getGrade s = auditService.getGrade s
  /\ bestPracticesService.getGrade s = auditService.getGrade s.
Proof.
  repeat split; reflexivity.
Qed.

(** ** The checks of the SEO analyzer *)

Lemma seo_checkTitle_uniform (title : string) : uniform (seoService.checkTitle title).
Proof. unfold seoService.checkTitle. cascade. Qed.

Lemma seo_checkMetaDescription_uniform (d : option string) :
  uniform (seoService.checkMetaDescription d).
Proof. unfold seoService.checkMetaDescription. cascade. Qed.

Lemma seo_checkH1_uniform (h : list Cheerio.node) : uniform (seoService.checkH1 h).
Proof. unfold seoService.checkH1. cascade. Qed.

Lemma seo_checkImages_uniform (n : nat) : uniform (seoService.checkImages n).
Proof. unfold seoService.checkImages. cascade. Qed.

Lemma seo_checkCanonical_uniform (c : option string) : uniform (seoService.checkCanonical c).
Proof. unfold seoService.checkCanonical. cascade. Qed.

Lemma seo_checkOpenGraph_uniform (a b : option string) :
  uniform (seoService.checkOpenGraph a b).
Proof. unfold seoService.checkOpenGraph. cascade. Qed.

(** The final tally of the SEO analyzer: the deductions add up and the
    issues follow each other in the order of the checks. *)
Lemma seo_audit_score (doc : Cheerio.document) :
  score (seoService.audit doc)
  = 100
    - deduction (seoService.checkTitle (seoService.title doc))
    - deduction (seoService.checkMetaDescription (seoService.metaDescription doc))
    - deduction (seoService.checkH1 (seoService.h1Tags doc))
    - deduction (seoService.checkImages (seoService.imagesWithoutAlt doc))
    - deduction (seoService.checkCanonical (seoService.canonical doc))
    - deduction (seoService.checkOpenGraph (seoService.ogTitle doc)
                                           (seoService.ogDescription doc)).
Proof.
  unfold seoService.audit.
  rewrite uniform_score by apply seo_checkOpenGraph_uniform.
  rewrite uniform_score by apply seo_checkCanonical_uniform.
  rewrite uniform_score by apply seo_checkImages_uniform.
  rewrite uniform_score by apply seo_checkH1_uniform.
  rewrite uniform_score by apply seo_checkMetaDescription_uniform.
  rewrite uniform_score by apply seo_checkTitle_uniform.
  reflexivity.
Qed.

Lemma seo_audit_issues (doc : Cheerio.document) :
  issues (seoService.audit doc)
  = (emitted (seoService.checkTitle (seoService.title doc))
     ++ emitted (seoService.checkMetaDescription (seoService.metaDescription doc))
     ++ emitted (seoService.checkH1 (seoService.h1Tags doc))
     ++ emitted (seoService.checkImages (seoService.imagesWithoutAlt doc))
     ++ emitted (seoService.checkCanonical (seoService.canonical doc))
     ++ emitted (seoService.checkOpenGraph (seoService.ogTitle doc)
                                           (seoService.ogDescription doc)))%list.
Proof.
  unfold seoService.audit.
  rewrite uniform_issues by apply seo_checkOpenGraph_uniform.
  rewrite uniform_issues by apply seo_checkCanonical_uniform.
  rewrite uniform_issues by apply seo_checkImages_uniform.
  rewrite uniform_issues by apply seo_checkH1_uniform.
  rewrite uniform_issues by apply seo_checkMetaDescription_uniform.
  rewrite uniform_issues by apply seo_checkTitle_uniform.
  simpl. rewrite <- !app_assoc. reflexivity.
Qed.

(** What a cascade takes off: decide the conditions and compute. *)
Ltac cost :=
  repeat match goal with
         | |- context [if ?c then _ else _] => destruct c
         end;
  unfold deduction, emitted, flag, start; cbv beta;
  cbn [score issues List.length app fst snd];
  try lia.

Lemma seo_checkTitle_cost (title : string) :
  0 <= deduction (seoService.checkTitle title) <= 15
  /\ (List.length (emitted (seoService.checkTitle title)) <= 1)%nat.
Proof. unfold seoService.checkTitle. split; cost. Qed.

Lemma seo_checkMetaDescription_cost (d : option string) :
  0 <= deduction (seoService.checkMetaDescription d) <= 15
  /\ (List.length (emitted (seoService.checkMetaDescription d)) <= 1)%nat.
Proof. unfold seoService.checkMetaDescription. split; cost. Qed.

Lemma seo_checkH1_cost (h : list Cheerio.node) :
  0 <= deduction (seoService.checkH1 h) <= 12
  /\ (List.length (emitted (seoService.checkH1 h)) <= 1)%nat.
Proof. unfold seoService.checkH1. split; cost. Qed.

Lemma seo_checkImages_cost (n : nat) : 0 <= deduction (seoService.checkImages n) <= 15.
Proof. unfold seoService.checkImages. cost. Qed.

Lemma seo_checkCanonical_cost (c : option string) :
  0 <= deduction (seoService.checkCanonical c) <= 5.
Proof. unfold seoService.checkCanonical. cost. Qed.

Lemma seo_checkOpenGraph_cost (a b : option string) :
  0 <= deduction (seoService.checkOpenGraph a b) <= 3.
Proof. unfold seoService.checkOpenGraph. cost. Qed.

(** C9. The SEO score never falls below 35: the title check takes off
    at most 15 and emits at most one issue, so do the meta-description
    check (15) and the H1 check (12); missing alternative texts cost at
    most 15, the canonical link 5 and Open Graph 3.  The running total
    therefore stays at 35 or above, and the reported score is the
    running total itself: the clamp at 0 is never reached. *)
Theorem seo_score_at_least_35 (url : string) (response : Axios.Response) :
  let doc := Axios.load (Axios.data response) in
  (0 <= deduction (seoService.checkTitle (seoService.title doc)) <= 15
   /\ (List.length (emitted (seoService.checkTitle (seoService.title doc))) <= 1)%nat)
  /\ (0 <= deduction (seoService.checkMetaDescription (seoService.metaDescription doc)) <= 15
      /\ (List.length
            (emitted (seoService.checkMetaDescription (seoService.metaDescription doc)))
          <= 1)%nat)
  /\ (0 <= deduction (seoService.checkH1 (seoService.h1Tags doc)) <= 12
      /\ (List.length (emitted (seoService.checkH1 (seoService.h1Tags doc))) <= 1)%nat)
  /\ 0 <= deduction (seoService.checkImages (seoService.imagesWithoutAlt doc)) <= 15
  /\ 0 <= deduction (seoService.checkCanonical (seoService.canonical doc)) <= 5
  /\ 0 <= deduction (seoService.checkOpenGraph (seoService.ogTitle doc)
                                               (seoService.ogDescription doc)) <= 3
  /\ exists r,
       seoService.analyzeSEO url (Axios.Resolved response) = Return r
       /\ DimensionResult.score r = score (seoService.audit doc)
       /\ 35 <= DimensionResult.score r.
Proof.
  intros doc.
  pose proof (seo_checkTitle_cost (seoService.title doc)) as Ht.
  pose proof (seo_checkMetaDescription_cost (seoService.metaDescription doc)) as Hm.
  pose proof (seo_checkH1_cost (seoService.h1Tags doc)) as Hh.
  pose proof (seo_checkImages_cost (seoService.imagesWithoutAlt doc)) as Hi.
  pose proof (seo_checkCanonical_cost (seoService.canonical doc)) as Hc.
  pose proof (seo_checkOpenGraph_cost (seoService.ogTitle doc) (seoService.ogDescription doc))
    as Ho.
  repeat (split; [assumption |]).
  eexists. split; [reflexivity |].
  cbn [DimensionResult.score]. fold doc.
  pose proof (seo_audit_score doc) as Hs.
  split; lia.
Qed.

(** ** A page with nothing an SEO check looks for *)




(** ** A title of white space *)

Lemma trimStart_blank (s : string) : blank s -> JS.trimStart s = "".
Proof.
  induction s as [| c s IH]; intros B; [reflexivity |].
  simpl. rewrite (B c) by (simpl; auto).
  apply IH. intros c' Hc'. apply B. simpl. auto.
Qed.

Lemma trim_blank (s : string) : blank s -> JS.trim s = "".
Proof.
  intros B. unfold JS.trim. rewrite (trimStart_blank s B). reflexivity.
Qed.

(** No check after the title check words an issue as the title-length
    warning is worded. *)
Lemma seo_later_checks_not_title_length (doc : Cheerio.document) :
  Forall (fun i => JS.startsWith (message i) "Title length" = false)
    (emitted (seoService.checkMetaDescription (seoService.metaDescription doc))
     ++ emitted (seoService.checkH1 (seoService.h1Tags doc))
     ++ emitted (seoService.checkImages (seoService.imagesWithoutAlt doc))
     ++ emitted (seoService.checkCanonical (seoService.canonical doc))
     ++ emitted (seoService.checkOpenGraph (seoService.ogTitle doc)
                                           (seoService.ogDescription doc)))%list.
Proof.
  repeat (apply Forall_app; split).
  - unfold seoService.checkMetaDescription.
    repeat match goal with |- context [if ?c then _ else _] => destruct c end;
      repeat constructor.
  - unfold seoService.checkH1.
    repeat match goal with |- context [if ?c then _ else _] => destruct c end;
      repeat constructor.
  - unfold seoService.checkImages.
    destruct (0 <? seoService.imagesWithoutAlt doc)%nat; repeat constructor.
    cbn [message]. unfold JS.show_nat, JS.startsWith.
    destruct (Nat.to_uint (seoService.imagesWithoutAlt doc)); reflexivity.
  - unfold seoService.checkCanonical.
    destruct (negb (JS.truthy_opt (seoService.canonical doc))); repeat constructor.
  - unfold seoService.checkOpenGraph.
    repeat match goal with |- context [if ?c then _ else _] => destruct c end;
      repeat constructor.
Qed.

(** C10. A title whose text is white space only is a missing title:
    the title check flags the high-impact error [Missing title tag] and
    takes off 15; that error heads the reported issues, none of which
    is worded as the title-length warning; the details report the
    title as [Not found] with length 0. *)
Theorem blank_title_is_missing_title (url : string) (response : Axios.Response) :
  let doc := Axios.load (Axios.data response) in
  blank (Cheerio.text (Cheerio.select doc (Cheerio.tag "title"))) ->
  (forall t, seoService.checkTitle (seoService.title doc) t
             = flag {| type := error; message := "Missing title tag"; impact := high |} 15 t)
  /\ exists r,
       seoService.analyzeSEO url (Axios.Resolved response) = Return r
       /\ hd_error (DimensionResult.issues r)
          = Some {| type := error; message := "Missing title tag"; impact := high |}
       /\ (forall i, In i (DimensionResult.issues r) ->
                     JS.startsWith (message i) "Title length" = false)
       /\ score (seoService.audit doc)
          = 100 - 15
            - deduction (seoService.checkMetaDescription (seoService.metaDescription doc))
            - deduction (seoService.checkH1 (seoService.h1Tags doc))
            - deduction (seoService.checkImages (seoService.imagesWithoutAlt doc))
            - deduction (seoService.checkCanonical (seoService.canonical doc))
            - deduction (seoService.checkOpenGraph (seoService.ogTitle doc)
                                                   (seoService.ogDescription doc))
       /\ DimensionResult.score r = Z.max (score (seoService.audit doc)) 0
       /\ seoService.Details.title (DimensionResult.details r) = "Not found"
       /\ seoService.Details.titleLength (DimensionResult.details r) = 0%nat.
Proof.
  intros doc B.
  assert (Ht : seoService.title doc = "") by (apply trim_blank; exact B).
  split; [intros t; rewrite Ht; reflexivity |].
  eexists. split; [reflexivity |].
  cbn [DimensionResult.issues DimensionResult.details DimensionResult.score
       seoService.Details.title seoService.Details.titleLength].
  fold doc. rewrite seo_audit_issues, seo_audit_score, Ht.
  repeat split.
  intros i Hi. cbn in Hi. destruct Hi as [<- | Hi]; [reflexivity |].
  pose proof (seo_later_checks_not_title_length doc) as F.
  rewrite Forall_forall in F. exact (F i Hi).
Qed.

(** C10 on a page whose title is a space, a line feed and a tab. *)
Lemma blank_title_is_missing_title_witness :
  exists r,
    seoService.analyzeSEO "https://example.com/"
      (Axios.Resolved (Sample.respond Sample.blankTitle)) = Return r
    /\ hd_error (DimensionResult.issues r)
       = Some {| type := error; message := "Missing title tag"; impact := high |}
    /\ seoService.Details.title (DimensionResult.details r) = "Not found"
    /\ seoService.Details.titleLength (DimensionResult.details r) = 0%nat.
Proof.
  assert (B : blank (Cheerio.text (Cheerio.select Sample.blankTitle (Cheerio.tag "title")))).
  { intros c Hc. cbn in Hc.
    repeat (destruct Hc as [<- | Hc]; [reflexivity |]). destruct Hc. }
  destruct (blank_title_is_missing_title "https://example.com/"
              (Sample.respond Sample.blankTitle) B) as [_ [r [E [Hh [_ [_ [_ [Hd Hl]]]]]]]].
  exists r. repeat split; assumption.
Defined.

(** ** The checks of the accessibility analyzer *)

Lemma accessibility_checkImages_uniform (n m : nat) :
  uniform (accessibilityService.checkImages n m).
Proof. unfold accessibilityService.checkImages. cascade. Qed.

Lemma accessibility_checkH1_uniform (n k : nat) :
  uniform (fun t => snd (accessibilityService.checkH1 n (k, t))).
Proof.
  unfold accessibilityService.checkH1.
  destruct (n =? 0)%nat; cbn [snd]; [apply flag_uniform | apply skip_uniform].
Qed.

Lemma accessibility_checkH1_counter (n k : nat) (t : Tally) :
  fst (accessibilityService.checkH1 n (k, t)) = ((if (n =? 0)%nat then 1 else 0) + k)%nat.
Proof.
  unfold accessibilityService.checkH1. destruct (n =? 0)%nat; reflexivity.
Qed.

Lemma accessibility_checkHierarchy_uniform (n : nat) :
  uniform (accessibilityService.checkHierarchy n).
Proof. unfold accessibilityService.checkHierarchy. cascade. Qed.

Lemma accessibility_checkLabels_uniform (n : nat) :
  uniform (accessibilityService.checkLabels n).
Proof. unfold accessibilityService.checkLabels. cascade. Qed.

Lemma accessibility_checkContrast_uniform (n : nat) :
  uniform (accessibilityService.checkContrast n).
Proof. unfold accessibilityService.checkContrast. cascade. Qed.

Lemma accessibility_checkKeyboard_uniform (n m : nat) :
  uniform (accessibilityService.checkKeyboard n m).
Proof. unfold accessibilityService.checkKeyboard. cascade. Qed.

Lemma accessibility_checkLandmarks_uniform (n : nat) :
  uniform (accessibilityService.checkLandmarks n).
Proof. unfold accessibilityService.checkLandmarks. cascade. Qed.

Lemma accessibility_checkLanguage_uniform (l : option string) :
  uniform (accessibilityService.checkLanguage l).
Proof. unfold accessibilityService.checkLanguage. cascade. Qed.

Lemma accessibility_checkSkipLinks_uniform (n : nat) :
  uniform (accessibilityService.checkSkipLinks n).
Proof. unfold accessibilityService.checkSkipLinks. cascade. Qed.

(** The analyzer as a chain of checks on the tally alone, the heading
    counter computed on the side. *)
Lemma accessibility_audit_chain (doc : Cheerio.document) :
  accessibilityService.audit doc
  = accessibilityService.checkSkipLinks (accessibilityService.skipLinks doc)
      (accessibilityService.checkLanguage (accessibilityService.htmlLang doc)
         (accessibilityService.checkLandmarks (accessibilityService.landmarks doc)
            (accessibilityService.checkKeyboard (accessibilityService.focusableElements doc)
               (accessibilityService.elementsWithTabindex doc)
               (accessibilityService.checkContrast
                  (accessibilityService.elementsWithInlineColors doc)
                  (accessibilityService.checkLabels
                     (accessibilityService.inputsWithoutLabels doc)
                     (accessibilityService.checkHierarchy
                        (accessibilityService.headingIssues doc)
                        (snd (accessibilityService.checkH1
                                (accessibilityService.h1Count doc)
                                (0%nat,
                                 accessibilityService.checkImages
                                   (accessibilityService.imagesWithoutAlt doc)
                                   (accessibilityService.totalImages doc) start))))))))).
Proof.
  unfold accessibilityService.audit, accessibilityService.headingIssues,
    accessibilityService.checkH1.
  destruct (accessibilityService.h1Count doc =? 0)%nat; reflexivity.
Qed.

Lemma accessibility_audit_score (doc : Cheerio.document) :
  score (accessibilityService.audit doc)
  = 100
    - deduction (accessibilityService.checkImages (accessibilityService.imagesWithoutAlt doc)
                                                  (accessibilityService.totalImages doc))
    - deduction (fun t => snd (accessibilityService.checkH1
                                 (accessibilityService.h1Count doc) (0%nat, t)))
    - deduction (accessibilityService.checkHierarchy (accessibilityService.headingIssues doc))
    - deduction (accessibilityService.checkLabels (accessibilityService.inputsWithoutLabels doc))
    - deduction (accessibilityService.checkContrast
                   (accessibilityService.elementsWithInlineColors doc))
    - deduction (accessibilityService.checkKeyboard
                   (accessibilityService.focusableElements doc)
                   (accessibilityService.elementsWithTabindex doc))
    - deduction (accessibilityService.checkLandmarks (accessibilityService.landmarks doc))
    - deduction (accessibilityService.checkLanguage (accessibilityService.htmlLang doc))
    - deduction (accessibilityService.checkSkipLinks (accessibilityService.skipLinks doc)).
Proof.
  rewrite accessibility_audit_chain.
  rewrite uniform_score by apply accessibility_checkSkipLinks_uniform.
  rewrite uniform_score by apply accessibility_checkLanguage_uniform.
  rewrite uniform_score by apply accessibility_checkLandmarks_uniform.
  rewrite uniform_score by apply accessibility_checkKeyboard_uniform.
  rewrite uniform_score by apply accessibility_checkContrast_uniform.
  rewrite uniform_score by apply accessibility_checkLabels_uniform.
  rewrite uniform_score by apply accessibility_checkHierarchy_uniform.
  rewrite (uniform_score
             (fun t => snd (accessibilityService.checkH1
                              (accessibilityService.h1Count doc) (0%nat, t))))
    by apply accessibility_checkH1_uniform.
  rewrite uniform_score by apply accessibility_checkImages_uniform.
  reflexivity.
Qed.

Lemma accessibility_audit_issues (doc : Cheerio.document) :
  issues (accessibilityService.audit doc)
  = (emitted (accessibilityService.checkImages (accessibilityService.imagesWithoutAlt doc)
                                               (accessibilityService.totalImages doc))
     ++ emitted (fun t => snd (accessibilityService.checkH1
                                 (accessibilityService.h1Count doc) (0%nat, t)))
     ++ emitted (accessibilityService.checkHierarchy (accessibilityService.headingIssues doc))
     ++ emitted (accessibilityService.checkLabels (accessibilityService.inputsWithoutLabels doc))
     ++ emitted (accessibilityService.checkContrast
                   (accessibilityService.elementsWithInlineColors doc))
     ++ emitted (accessibilityService.checkKeyboard
                   (accessibilityService.focusableElements doc)
                   (accessibilityService.elementsWithTabindex doc))
     ++ emitted (accessibilityService.checkLandmarks (accessibilityService.landmarks doc))
     ++ emitted (accessibilityService.checkLanguage (accessibilityService.htmlLang doc))
     ++ emitted (accessibilityService.checkSkipLinks (accessibilityService.skipLinks doc)))%list.
Proof.
  rewrite accessibility_audit_chain.
  rewrite uniform_issues by apply accessibility_checkSkipLinks_uniform.
  rewrite uniform_issues by apply accessibility_checkLanguage_uniform.
  rewrite uniform_issues by apply accessibility_checkLandmarks_uniform.
  rewrite uniform_issues by apply accessibility_checkKeyboard_uniform.
  rewrite uniform_issues by apply accessibility_checkContrast_uniform.
  rewrite uniform_issues by apply accessibility_checkLabels_uniform.
  rewrite uniform_issues by apply accessibility_checkHierarchy_uniform.
  rewrite (uniform_issues
             (fun t => snd (accessibilityService.checkH1
                              (accessibilityService.h1Count doc) (0%nat, t))))
    by apply accessibility_checkH1_uniform.
  rewrite uniform_issues by apply accessibility_checkImages_uniform.
  cbn [issues start app]. rewrite <- !app_assoc. reflexivity.
Qed.

(** ** The heading walk *)

(** On an element the heading selector matches, the callback reads the
    level off the tag name, and the level lies between 1 and 6. *)
Lemma heading_level (doc : Cheerio.document) (el : Cheerio.node) :
  In el (accessibilityService.headings doc) ->
  JS.parseInt (JS.charAt (Cheerio.tagName el) 1) = Some (level el) /\ 1 <= level el <= 6.
Proof.
  unfold accessibilityService.headings, Cheerio.select. intros H.
  apply filter_In in H. destruct H as [_ H].
  unfold Cheerio.anyOf in H. cbn [existsb] in H. unfold Cheerio.tag in H.
  destruct el as [t a cs | s]; [| discriminate].
  repeat (apply orb_true_iff in H; destruct H as [H | H]);
    try discriminate; apply String.eqb_eq in H; subst t;
    (split; [reflexivity | cbn; lia]).
Qed.

Lemma walk_from (hs : list Cheerio.node) :
  Forall (fun el => JS.parseInt (JS.charAt (Cheerio.tagName el) 1) = Some (level el)
                    /\ 1 <= level el <= 6) hs ->
  forall (p : Z) (k : nat),
    p <> 0 ->
    fst (fold_left accessibilityService.visit hs (k, Some p))
    = (k + breaks (p :: map level hs))%nat.
Proof.
  induction 1 as [| h hs [Hl Hr] _ IH]; intros p k Hp.
  - cbn. lia.
  - cbn [fold_left map]. unfold accessibilityService.visit at 2. rewrite Hl.
    cbn [JS.gt JS.plus option_map JS.strict_neq].
    assert (E : negb (p =? 0) = true) by (apply negb_true_iff, Z.eqb_neq; exact Hp).
    rewrite E, andb_true_r.
    rewrite IH by lia.
    cbn [breaks]. destruct (p + 1 <? level h); lia.
Qed.

Lemma walk_breaks (hs : list Cheerio.node) (k : nat) :
  Forall (fun el => JS.parseInt (JS.charAt (Cheerio.tagName el) 1) = Some (level el)
                    /\ 1 <= level el <= 6) hs ->
  accessibilityService.walk hs k = (k + breaks (map level hs))%nat.
Proof.
  unfold accessibilityService.walk. intros F.
  destruct F as [| h hs [Hl Hr] F].
  - cbn. lia.
  - cbn [fold_left map]. unfold accessibilityService.visit at 2. rewrite Hl.
    cbn [JS.gt JS.plus option_map JS.strict_neq Z.eqb negb]. rewrite andb_false_r.
    apply walk_from; [exact F | lia].
Qed.

(** The counter after the walk: one for a missing H1, one for each
    break of the hierarchy. *)
Lemma headingIssues_count (doc : Cheerio.document) :
  accessibilityService.headingIssues doc
  = ((if (accessibilityService.h1Count doc =? 0)%nat then 1 else 0)
     + breaks (map level (accessibilityService.headings doc)))%nat.
Proof.
  unfold accessibilityService.headingIssues.
  rewrite walk_breaks.
  - rewrite accessibility_checkH1_counter. lia.
  - apply Forall_forall. intros el Hel. exact (heading_level doc el Hel).
Qed.

Lemma count_absent (w : Issue) (l : list Issue) :
  ~ In w l -> count_occ Issue_eq_dec l w = 0%nat.
Proof.
  apply count_occ_not_In.
Qed.

(** An issue that a cascade never emits: decide the conditions and tell
    the issues apart. *)
Ltac nowhere :=
  repeat match goal with
         | |- context [if ?c then _ else _] => destruct c
         end;
  unfold emitted, flag, start; cbv beta; cbn [issues app snd In];
  intuition discriminate.



(** Without an H1, a single break already brings the counter to 2 and
    the warning with its deduction of 10. *)
Example missing_h1_and_one_break :
  accessibilityService.headingIssues SampleHeadings.noH1OneBreak = 2%nat
  /\ exists r,
       accessibilityService.analyzeAccessibility "https://example.com/"
         (Axios.Resolved (Sample.respond SampleHeadings.noH1OneBreak)) = Return r
       /\ In {| type := warning; message := "Improper heading hierarchy"; impact := medium |}
             (DimensionResult.issues r)
       /\ DimensionResult.score r = 100 - 15 - 10 - 8 - 3.
Proof.
  split; [reflexivity |]. eexists. split; [reflexivity |].
  split; [right; left; reflexivity | reflexivity].
Qed.

(** ** The fully accessible page *)


(** The sample pages all meet the scenario. *)
Ltac scenario :=
  split; [eexists; reflexivity |];
  repeat (split; [first [ reflexivity | apply Nat.ltb_lt; reflexivity ] |]);
  apply Nat.ltb_lt; reflexivity.



(** ** The checks of the best-practices analyzer *)

Lemma uniform_compose (c1 c2 : Tally -> Tally) :
  uniform c1 -> uniform c2 -> uniform (fun t => c2 (c1 t)).
Proof.
  intros U1 U2 t. unfold emitted, deduction.
  rewrite (U2 (c1 t)), (U2 (c1 start)), (U1 t), (U1 start).
  unfold start. cbn [issues score app]. rewrite app_assoc. f_equal. lia.
Qed.

Lemma uniform_ext (c c' : Tally -> Tally) :
  (forall t, c t = c' t) -> uniform c -> uniform c'.
Proof.
  intros E U t. unfold emitted, deduction. rewrite <- !E. apply U.
Qed.

Lemma uniform_fold {X : Type} (step : X -> Tally -> Tally) (l : list X) :
  (forall x, uniform (step x)) -> uniform (fun t => fold_left (fun t x => step x t) l t).
Proof.
  intros U. induction l as [| x l IH] using rev_ind.
  - apply skip_uniform.
  - apply (uniform_ext (fun t => step x (fold_left (fun t x => step x t) l t))).
    + intros t. rewrite fold_left_app. reflexivity.
    + apply (uniform_compose _ (step x) IH (U x)).
Qed.

Lemma bestPractices_checkHTTPS_uniform (b : bool) : uniform (bestPracticesService.checkHTTPS b).
Proof. unfold bestPracticesService.checkHTTPS. cascade. Qed.

Lemma bestPractices_checkSecurityHeaders_uniform (h : Axios.Headers) :
  uniform (bestPracticesService.checkSecurityHeaders h).
Proof.
  unfold bestPracticesService.checkSecurityHeaders.
  apply (uniform_fold
           (fun header t =>
              if negb (JS.truthy_opt (Axios.header h (fst header)))
              then flag {| type := warning; message := snd header; impact := medium |} 5 t
              else t)).
  intros x. cascade.
Qed.

Lemma bestPractices_checkViewport_uniform (v : option string) :
  uniform (bestPracticesService.checkViewport v).
Proof. unfold bestPracticesService.checkViewport. cascade. Qed.

Lemma bestPractices_checkFavicon_uniform (b : bool) :
  uniform (bestPracticesService.checkFavicon b).
Proof. unfold bestPracticesService.checkFavicon. cascade. Qed.

Lemma bestPractices_checkExternalLinks_uniform (n : nat) :
  uniform (bestPracticesService.checkExternalLinks n).
Proof. unfold bestPracticesService.checkExternalLinks. cascade. Qed.

Lemma bestPractices_checkMixedContent_uniform (b : bool) (n : nat) :
  uniform (bestPracticesService.checkMixedContent b n).
Proof. unfold bestPracticesService.checkMixedContent. cascade. Qed.

Lemma bestPractices_checkDeprecated_uniform (n : nat) :
  uniform (bestPracticesService.checkDeprecated n).
Proof. unfold bestPracticesService.checkDeprecated. cascade. Qed.

Lemma bestPractices_checkInlineStyles_uniform (n : nat) :
  uniform (bestPracticesService.checkInlineStyles n).
Proof. unfold bestPracticesService.checkInlineStyles. cascade. Qed.

Lemma bestPractices_checkInlineScripts_uniform (n : nat) :
  uniform (bestPracticesService.checkInlineScripts n).
Proof. unfold bestPracticesService.checkInlineScripts. cascade. Qed.

Lemma bestPractices_audit_score (url : string) (response : Axios.Response) (hostname : string) :
  let doc := Axios.load (Axios.data response) in
  score (bestPracticesService.audit url response hostname)
  = 100
    - deduction (bestPracticesService.checkHTTPS (bestPracticesService.isHTTPS url))
    - deduction (bestPracticesService.checkSecurityHeaders (Axios.headers response))
    - deduction (bestPracticesService.checkViewport (bestPracticesService.viewportMeta doc))
    - deduction (bestPracticesService.checkFavicon (bestPracticesService.favicon doc))
    - deduction (bestPracticesService.checkExternalLinks
                   (bestPracticesService.unsafeExternalLinks doc hostname))
    - deduction (bestPracticesService.checkMixedContent
                   (bestPracticesService.isHTTPS url) (bestPracticesService.httpResources doc))
    - deduction (bestPracticesService.checkDeprecated
                   (bestPracticesService.deprecatedElements doc))
    - deduction (bestPracticesService.checkInlineStyles (bestPracticesService.inlineStyles doc))
    - deduction (bestPracticesService.checkInlineScripts
                   (bestPracticesService.inlineScripts doc)).
Proof.
  intros doc. unfold bestPracticesService.audit. fold doc.
  rewrite uniform_score by apply bestPractices_checkInlineScripts_uniform.
  rewrite uniform_score by apply bestPractices_checkInlineStyles_uniform.
  rewrite uniform_score by apply bestPractices_checkDeprecated_uniform.
  rewrite uniform_score by apply bestPractices_checkMixedContent_uniform.
  rewrite uniform_score by apply bestPractices_checkExternalLinks_uniform.
  rewrite uniform_score by apply bestPractices_checkFavicon_uniform.
  rewrite uniform_score by apply bestPractices_checkViewport_uniform.
  rewrite uniform_score by apply bestPractices_checkSecurityHeaders_uniform.
  rewrite uniform_score by apply bestPractices_checkHTTPS_uniform.
  reflexivity.
Qed.

Lemma bestPractices_audit_issues (url : string) (response : Axios.Response) (hostname : string) :
  let doc := Axios.load (Axios.data response) in
  issues (bestPracticesService.audit url response hostname)
  = (emitted (bestPracticesService.checkHTTPS (bestPracticesService.isHTTPS url))
     ++ emitted (bestPracticesService.checkSecurityHeaders (Axios.headers response))
     ++ emitted (bestPracticesService.checkViewport (bestPracticesService.viewportMeta doc))
     ++ emitted (bestPracticesService.checkFavicon (bestPracticesService.favicon doc))
     ++ emitted (bestPracticesService.checkExternalLinks
                   (bestPracticesService.unsafeExternalLinks doc hostname))
     ++ emitted (bestPracticesService.checkMixedContent
                   (bestPracticesService.isHTTPS url) (bestPracticesService.httpResources doc))
     ++ emitted (bestPracticesService.checkDeprecated
                   (bestPracticesService.deprecatedElements doc))
     ++ emitted (bestPracticesService.checkInlineStyles (bestPracticesService.inlineStyles doc))
     ++ emitted (bestPracticesService.checkInlineScripts
                   (bestPracticesService.inlineScripts doc)))%list.
Proof.
  intros doc. unfold bestPracticesService.audit. fold doc.
  rewrite uniform_issues by apply bestPractices_checkInlineScripts_uniform.
  rewrite uniform_issues by apply bestPractices_checkInlineStyles_uniform.
  rewrite uniform_issues by apply bestPractices_checkDeprecated_uniform.
  rewrite uniform_issues by apply bestPractices_checkMixedContent_uniform.
  rewrite uniform_issues by apply bestPractices_checkExternalLinks_uniform.
  rewrite uniform_issues by apply bestPractices_checkFavicon_uniform.
  rewrite uniform_issues by apply bestPractices_checkViewport_uniform.
  rewrite uniform_issues by apply bestPractices_checkSecurityHeaders_uniform.
  rewrite uniform_issues by apply bestPractices_checkHTTPS_uniform.
  cbn [issues start app]. rewrite <- !app_assoc. reflexivity.
Qed.

(** ** Unsafe external links *)

(** C7. An external link is counted unsafe exactly when its [rel]
    does not contain [noopener] or does not contain [noreferrer], so a
    link that carries only one of the two is counted; with [n] such
    links, the warning about them occurs once among the reported issues
    when [n] is positive and not at all when it is zero, and the check
    takes [min(n*2, 10)] off the running total. *)
Theorem unsafe_external_links (url : string) (response : Axios.Response) (hostname : string) :
  let doc := Axios.load (Axios.data response) in
  let n := bestPracticesService.unsafeExternalLinks doc hostname in
  let issue :=
    {| type := warning;
       message := JS.show_nat n ++ " external links missing rel=" ++ JS.dquote
                  ++ "noopener noreferrer" ++ JS.dquote;
       impact := medium |} in
  (forall el,
      In el (filter bestPracticesService.unsafe
               (bestPracticesService.externalLinks doc hostname))
      <-> In el (bestPracticesService.externalLinks doc hostname)
          /\ (JS.includes (JS.or_else (Cheerio.attrOf el "rel") "") "noopener" = false
              \/ JS.includes (JS.or_else (Cheerio.attrOf el "rel") "") "noreferrer" = false))
  /\ n = List.length (filter bestPracticesService.unsafe
                        (bestPracticesService.externalLinks doc hostname))
  /\ (forall el, Cheerio.attrOf el "rel" = Some "noopener" ->
                 bestPracticesService.unsafe el = true)
  /\ (forall el, Cheerio.attrOf el "rel" = Some "noreferrer" ->
                 bestPracticesService.unsafe el = true)
  /\ exists r,
       bestPracticesService.analyzeBestPractices url (Axios.Resolved response)
         (Return hostname) = Return r
       /\ occurrences issue (DimensionResult.issues r) = (if (0 <? n)%nat then 1 else 0)%nat
       /\ deduction (bestPracticesService.checkExternalLinks n)
          = Z.min (Z.of_nat n * 2) 10
       /\ score (bestPracticesService.audit url response hostname)
          = 100
            - deduction (bestPracticesService.checkHTTPS (bestPracticesService.isHTTPS url))
            - deduction (bestPracticesService.checkSecurityHeaders (Axios.headers response))
            - deduction (bestPracticesService.checkViewport
                           (bestPracticesService.viewportMeta doc))
            - deduction (bestPracticesService.checkFavicon (bestPracticesService.favicon doc))
            - deduction (bestPracticesService.checkExternalLinks n)
            - deduction (bestPracticesService.checkMixedContent
                           (bestPracticesService.isHTTPS url)
                           (bestPracticesService.httpResources doc))
            - deduction (bestPracticesService.checkDeprecated
                           (bestPracticesService.deprecatedElements doc))
            - deduction (bestPracticesService.checkInlineStyles
                           (bestPracticesService.inlineStyles doc))
            - deduction (bestPracticesService.checkInlineScripts
                           (bestPracticesService.inlineScripts doc))
       /\ DimensionResult.score r
          = Z.max (score (bestPracticesService.audit url response hostname)) 0.
Proof.
  intros doc n issue.
  split.
  { intros el. rewrite filter_In. unfold bestPracticesService.unsafe.
    rewrite orb_true_iff, !negb_true_iff. reflexivity. }
  split; [reflexivity |].
  split; [intros el H; unfold bestPracticesService.unsafe; rewrite H; reflexivity |].
  split; [intros el H; unfold bestPracticesService.unsafe; rewrite H; reflexivity |].
  eexists. split; [reflexivity |].
  cbn [DimensionResult.issues DimensionResult.score]. fold doc. fold n.
  split; [| split; [| split; [apply bestPractices_audit_score | reflexivity]]].
  - rewrite bestPractices_audit_issues. fold doc. fold n.
    unfold occurrences. rewrite !count_occ_app.
    replace (count_occ Issue_eq_dec
               (emitted (bestPracticesService.checkExternalLinks n)) issue)
      with (if (0 <? n)%nat then 1 else 0)%nat.
    + assert (Hhead : forall m : string,
                 String.get 0 m = Some "M"%char \/ String.get 0 m = Some "V"%char ->
                 {| type := warning; message := m; impact := medium |} <> issue).
      { intros m Hm E. injection E as E. subst m. unfold JS.show_nat in Hm.
        destruct (Nat.to_uint n); cbn in Hm; destruct Hm; discriminate. }
      rewrite (count_absent issue (emitted (bestPracticesService.checkHTTPS _)))
        by (unfold bestPracticesService.checkHTTPS; nowhere).
      rewrite (count_absent issue (emitted (bestPracticesService.checkSecurityHeaders _))).
      2:{ unfold bestPracticesService.checkSecurityHeaders,
            bestPracticesService.securityHeaders.
          cbn [fold_left fst snd].
          repeat match goal with
                 | |- context [if ?c then _ else _] => destruct c
                 end;
            unfold emitted, flag, start; cbn [issues app In];
            intros H;
            repeat (destruct H as [H | H]; [revert H; apply Hhead; left; reflexivity |]);
            exact H. }
      rewrite (count_absent issue (emitted (bestPracticesService.checkViewport _))).
      2:{ unfold bestPracticesService.checkViewport.
          repeat match goal with
                 | |- context [if ?c then _ else _] => destruct c
                 end;
            unfold emitted, flag, start; cbn [issues app In];
            intros H;
            repeat (destruct H as [H | H];
                    [first [ discriminate H
                           | revert H; apply Hhead; right; reflexivity ] |]);
            exact H. }
      rewrite (count_absent issue (emitted (bestPracticesService.checkFavicon _)))
        by (unfold bestPracticesService.checkFavicon; nowhere).
      rewrite (count_absent issue (emitted (bestPracticesService.checkMixedContent _ _)))
        by (unfold bestPracticesService.checkMixedContent; nowhere).
      rewrite (count_absent issue (emitted (bestPracticesService.checkDeprecated _)))
        by (unfold bestPracticesService.checkDeprecated; nowhere).
      rewrite (count_absent issue (emitted (bestPracticesService.checkInlineStyles _)))
        by (unfold bestPracticesService.checkInlineStyles; nowhere).
      rewrite (count_absent issue (emitted (bestPracticesService.checkInlineScripts _)))
        by (unfold bestPracticesService.checkInlineScripts; nowhere).
      lia.
    + unfold bestPracticesService.checkExternalLinks.
      destruct (0 <? n)%nat; [| reflexivity].
      unfold emitted, flag, start. cbn [issues app count_occ].
      destruct (Issue_eq_dec _ issue) as [_ | N]; [reflexivity | now destruct N].
  - unfold bestPracticesService.checkExternalLinks.
    destruct (0 <? n)%nat eqn:E; unfold deduction, flag, start; cbn [score].
    + lia.
    + apply Nat.ltb_ge in E. lia.
Qed.

(** C7 on [SampleLinks.mixed], a page of example.com: the link with
    only [noopener] and the link without [rel] are counted, the link
    with both tokens and the internal link are not; one warning, and 4
    points off. *)
Lemma unsafe_external_links_witness :
  bestPracticesService.unsafeExternalLinks SampleLinks.mixed "example.com" = 2%nat
  /\ exists r,
       bestPracticesService.analyzeBestPractices "https://example.com/"
         (Axios.Resolved (Sample.respond SampleLinks.mixed)) (Return "example.com")
       = Return r
       /\ occurrences
            {| type := warning;
               message := "2 external links missing rel=" ++ JS.dquote
                          ++ "noopener noreferrer" ++ JS.dquote;
               impact := medium |}
            (DimensionResult.issues r) = 1%nat
       /\ deduction (bestPracticesService.checkExternalLinks 2) = 4.
Proof.
  destruct (unsafe_external_links "https://example.com/"
              (Sample.respond SampleLinks.mixed) "example.com")
    as [_ [Hn [_ [_ [r [E [Ho [Hd _]]]]]]]].
  split; [reflexivity |]. exists r. split; [exact E |]. split; [exact Ho | exact Hd].
Defined.

(** ** The checks of the performance analyzer *)

Lemma performance_checkLoadTime_uniform (loadTime : Z) :
  uniform (performanceService.checkLoadTime loadTime).
Proof. unfold performanceService.checkLoadTime. cascade. Qed.

Lemma performance_checkSize_uniform (size : Z) : uniform (performanceService.checkSize size).
Proof. unfold performanceService.checkSize. cascade. Qed.

Lemma performance_checkCompression_uniform (h : Axios.Headers) :
  uniform (performanceService.checkCompression h).
Proof. unfold performanceService.checkCompression. cascade. Qed.

Lemma performance_checkCaching_uniform (h : Axios.Headers) :
  uniform (performanceService.checkCaching h).
Proof. unfold performanceService.checkCaching. cascade. Qed.

Lemma performance_checkCDN_uniform (b : bool) : uniform (performanceService.checkCDN b).
Proof. unfold performanceService.checkCDN. cascade. Qed.

Lemma performance_audit_score (response : Axios.Response) (loadTime : Z) :
  score (performanceService.audit response loadTime)
  = 100
    - deduction (performanceService.checkLoadTime loadTime)
    - deduction (performanceService.checkSize
                   (performanceService.sizeInKB (Axios.byteLength (Axios.data response))))
    - deduction (performanceService.checkCompression (Axios.headers response))
    - deduction (performanceService.checkCaching (Axios.headers response))
    - deduction (performanceService.checkCDN
                   (performanceService.hasCDN (Axios.headers response))).
Proof.
  unfold performanceService.audit.
  rewrite uniform_score by apply performance_checkCDN_uniform.
  rewrite uniform_score by apply performance_checkCaching_uniform.
  rewrite uniform_score by apply performance_checkCompression_uniform.
  rewrite uniform_score by apply performance_checkSize_uniform.
  rewrite uniform_score by apply performance_checkLoadTime_uniform.
  reflexivity.
Qed.

(** ** No running total exceeds 100 *)

Lemma seo_audit_at_most_100 (doc : Cheerio.document) : score (seoService.audit doc) <= 100.
Proof.
  rewrite seo_audit_score.
  pose proof (seo_checkTitle_cost (seoService.title doc)).
  pose proof (seo_checkMetaDescription_cost (seoService.metaDescription doc)).
  pose proof (seo_checkH1_cost (seoService.h1Tags doc)).
  pose proof (seo_checkImages_cost (seoService.imagesWithoutAlt doc)).
  pose proof (seo_checkCanonical_cost (seoService.canonical doc)).
  pose proof (seo_checkOpenGraph_cost (seoService.ogTitle doc) (seoService.ogDescription doc)).
  lia.
Qed.

Lemma performance_audit_at_most_100 (response : Axios.Response) (loadTime : Z) :
  score (performanceService.audit response loadTime) <= 100.
Proof.
  rewrite performance_audit_score.
  assert (0 <= deduction (performanceService.checkLoadTime loadTime))
    by (unfold performanceService.checkLoadTime; cost).
  assert (0 <= deduction (performanceService.checkSize
                            (performanceService.sizeInKB
                               (Axios.byteLength (Axios.data response)))))
    by (unfold performanceService.checkSize; cost).
  assert (0 <= deduction (performanceService.checkCompression (Axios.headers response)))
    by (unfold performanceService.checkCompression; cost).
  assert (0 <= deduction (performanceService.checkCaching (Axios.headers response)))
    by (unfold performanceService.checkCaching; cost).
  assert (0 <= deduction (performanceService.checkCDN
                            (performanceService.hasCDN (Axios.headers response))))
    by (unfold performanceService.checkCDN; cost).
  lia.
Qed.

Lemma accessibility_audit_at_most_100 (doc : Cheerio.document) :
  score (accessibilityService.audit doc) <= 100.
Proof.
  rewrite accessibility_audit_score.
  assert (0 <= deduction (accessibilityService.checkImages
                            (accessibilityService.imagesWithoutAlt doc)
                            (accessibilityService.totalImages doc)))
    by (unfold accessibilityService.checkImages; cost).
  assert (0 <= deduction (fun t => snd (accessibilityService.checkH1
                                          (accessibilityService.h1Count doc) (0%nat, t))))
    by (unfold accessibilityService.checkH1; cost).
  assert (0 <= deduction (accessibilityService.checkHierarchy
                            (accessibilityService.headingIssues doc)))
    by (unfold accessibilityService.checkHierarchy; cost).
  assert (0 <= deduction (accessibilityService.checkLabels
                            (accessibilityService.inputsWithoutLabels doc)))
    by (unfold accessibilityService.checkLabels; cost).
  assert (0 <= deduction (accessibilityService.checkContrast
                            (accessibilityService.elementsWithInlineColors doc)))
    by (unfold accessibilityService.checkContrast; cost).
  assert (0 <= deduction (accessibilityService.checkKeyboard
                            (accessibilityService.focusableElements doc)
                            (accessibilityService.elementsWithTabindex doc)))
    by (unfold accessibilityService.checkKeyboard; cost).
  assert (0 <= deduction (accessibilityService.checkLandmarks
                            (accessibilityService.landmarks doc)))
    by (unfold accessibilityService.checkLandmarks; cost).
  assert (0 <= deduction (accessibilityService.checkLanguage
                            (accessibilityService.htmlLang doc)))
    by (unfold accessibilityService.checkLanguage; cost).
  assert (0 <= deduction (accessibilityService.checkSkipLinks
                            (accessibilityService.skipLinks doc)))
    by (unfold accessibilityService.checkSkipLinks; cost).
  lia.
Qed.

Lemma bestPractices_audit_at_most_100 (url : string) (response : Axios.Response)
  (hostname : string) :
  score (bestPracticesService.audit url response hostname) <= 100.
Proof.
  rewrite bestPractices_audit_score.
  assert (0 <= deduction (bestPracticesService.checkHTTPS (bestPracticesService.isHTTPS url)))
    by (unfold bestPracticesService.checkHTTPS; cost).
  assert (0 <= deduction (bestPracticesService.checkSecurityHeaders (Axios.headers response)))
    by (unfold bestPracticesService.checkSecurityHeaders,
          bestPracticesService.securityHeaders; cbn [fold_left fst snd]; cost).
  assert (0 <= deduction (bestPracticesService.checkViewport
                            (bestPracticesService.viewportMeta
                               (Axios.load (Axios.data response)))))
    by (unfold bestPracticesService.checkViewport; cost).
  assert (0 <= deduction (bestPracticesService.checkFavicon
                            (bestPracticesService.favicon (Axios.load (Axios.data response)))))
    by (unfold bestPracticesService.checkFavicon; cost).
  assert (0 <= deduction (bestPracticesService.checkExternalLinks
                            (bestPracticesService.unsafeExternalLinks
                               (Axios.load (Axios.data response)) hostname)))
    by (unfold bestPracticesService.checkExternalLinks; cost).
  assert (0 <= deduction (bestPracticesService.checkMixedContent
                            (bestPracticesService.isHTTPS url)
                            (bestPracticesService.httpResources
                               (Axios.load (Axios.data response)))))
    by (unfold bestPracticesService.checkMixedContent; cost).
  assert (0 <= deduction (bestPracticesService.checkDeprecated
                            (bestPracticesService.deprecatedElements
                               (Axios.load (Axios.data response)))))
    by (unfold bestPracticesService.checkDeprecated; cost).
  assert (0 <= deduction (bestPracticesService.checkInlineStyles
                            (bestPracticesService.inlineStyles
                               (Axios.load (Axios.data response)))))
    by (unfold bestPracticesService.checkInlineStyles; cost).
  assert (0 <= deduction (bestPracticesService.checkInlineScripts
                            (bestPracticesService.inlineScripts
                               (Axios.load (Axios.data response)))))
    by (unfold bestPracticesService.checkInlineScripts; cost).
  cbv zeta. lia.
Qed.

(** ** The aggregator *)

Lemma or0_same (x : Z) : auditService.or0 x = x.
Proof.
  unfold auditService.or0. destruct (Z.eqb_spec x 0); congruence.
Qed.

Lemma lengthOr0_found {D : Type} (p : Throws (DimensionResult.t D)) :
  auditService.lengthOr0 (auditService.Dimension.issues (auditService.catch p)) = found p.
Proof.
  destruct p as [r | m]; [| reflexivity].
  cbn. destruct (Nat.eqb_spec (List.length (DimensionResult.issues r)) 0); congruence.
Qed.

Lemma score_contribution {D : Type} (p : Throws (DimensionResult.t D)) :
  auditService.Dimension.score (auditService.catch p) = contribution p.
Proof.
  destruct p; reflexivity.
Qed.

Lemma catch_reported {D : Type} (p : Throws (DimensionResult.t D)) :
  reported p (auditService.catch p).
Proof.
  destruct p; cbn; auto.
Qed.

Lemma catch_isPlaceholder {D : Type} (p : Throws (DimensionResult.t D)) :
  isPlaceholder (auditService.catch p) = failed p.
Proof.
  destruct p; reflexivity.
Qed.

(** [Math.round] of a sum of four integers divided by 4. *)
Lemma overallScore_four (a b c d : Z) :
  auditService.overallScore [a; b; c; d] = (a + b + c + d + 2) / 4.
Proof.
  unfold auditService.overallScore, JS.Math_round.
  cbn [fold_left List.length Z.of_nat Pos.of_succ_nat Pos.succ].
  unfold Qdiv, Qinv, Qmult, Qplus, inject_Z, Qfloor. cbn [Qnum Qden].
  change (Z.pos (1 * 4)) with 4. change (Z.pos (1 * 4 * 2)) with (4 * 2).
  replace ((0 + a + b + c + d) * 1 * 2 + 1 * 4) with ((a + b + c + d + 2) * 2) by lia.
  apply Z.div_mul_cancel_r; lia.
Qed.

(** [Math.round] rounds. *)
Lemma Math_round_rounded (q : Q) : rounded q (JS.Math_round q).
Proof.
  unfold rounded, JS.Math_round.
  pose proof (Qfloor_le (q + (1 # 2))) as Hle.
  pose proof (Qlt_floor (q + (1 # 2))) as Hlt.
  rewrite inject_Z_plus in Hlt. change (inject_Z 1) with 1%Q in Hlt.
  split; lra.
Qed.

Lemma overallScore_rounded (a b c d : Z) :
  rounded (mean [a; b; c; d]) (auditService.overallScore [a; b; c; d]).
Proof.
  unfold auditService.overallScore, mean. cbn [fold_left fold_right].
  replace (0 + a + b + c + d) with (a + (b + (c + (d + 0)))) by lia.
  apply Math_round_rounded.
Qed.

(** The scores of the slots are the contributions of the analyzers. *)
Lemma runFullAudit_returns (url : string) (w : auditService.World.t) :
  auditService.runFullAudit url w
  = Return
      {| auditService.AuditResults.overall :=
           {| auditService.Overall.score :=
                auditService.overallScore
                  [ contribution (seoService.analyzeSEO url (auditService.World.seoGet w));
                    contribution
                      (performanceService.analyzePerformance url
                         (auditService.World.performanceGet w) (auditService.World.loadTime w));
                    contribution
                      (accessibilityService.analyzeAccessibility url
                         (auditService.World.accessibilityGet w));
                    contribution
                      (bestPracticesService.analyzeBestPractices url
                         (auditService.World.bestPracticesGet w)
                         (auditService.World.hostname w)) ];
              auditService.Overall.grade :=
                auditService.getGrade
                  (auditService.overallScore
                     [ contribution (seoService.analyzeSEO url (auditService.World.seoGet w));
                       contribution
                         (performanceService.analyzePerformance url
                            (auditService.World.performanceGet w)
                            (auditService.World.loadTime w));
                       contribution
                         (accessibilityService.analyzeAccessibility url
                            (auditService.World.accessibilityGet w));
                       contribution
                         (bestPracticesService.analyzeBestPractices url
                            (auditService.World.bestPracticesGet w)
                            (auditService.World.hostname w)) ]);
              auditService.Overall.timestamp := auditService.World.now w |};
         auditService.AuditResults.seo :=
           auditService.catch (seoService.analyzeSEO url (auditService.World.seoGet w));
         auditService.AuditResults.performance :=
           auditService.catch
             (performanceService.analyzePerformance url
                (auditService.World.performanceGet w) (auditService.World.loadTime w));
         auditService.AuditResults.accessibility :=
           auditService.catch
             (accessibilityService.analyzeAccessibility url
                (auditService.World.accessibilityGet w));
         auditService.AuditResults.bestPractices :=
           auditService.catch
             (bestPracticesService.analyzeBestPractices url
                (auditService.World.bestPracticesGet w) (auditService.World.hostname w));
         auditService.AuditResults.summary :=
           {| auditService.Summary.totalIssues :=
                (found (seoService.analyzeSEO url (auditService.World.seoGet w))
                 + found (performanceService.analyzePerformance url
                            (auditService.World.performanceGet w)
                            (auditService.World.loadTime w))
                 + found (accessibilityService.analyzeAccessibility url
                            (auditService.World.accessibilityGet w))
                 + found (bestPracticesService.analyzeBestPractices url
                            (auditService.World.bestPracticesGet w)
                            (auditService.World.hostname w)))%nat;
              auditService.Summary.criticalIssues := 0%nat;
              auditService.Summary.recommendations := [] |} |}.
Proof.
  unfold auditService.runFullAudit.
  rewrite !or0_same, !score_contribution, !lengthOr0_found. reflexivity.
Qed.

(** Every analyzer reports a score within bounds with its letter. *)
Lemma seo_well_scored (url : string) (get : Axios.Outcome) (r : DimensionResult.t _) :
  seoService.analyzeSEO url get = Return r -> well_scored r.
Proof.
  destruct get as [response | m]; [| discriminate].
  intros E. injection E as <-. unfold well_scored. cbn [DimensionResult.score DimensionResult.grade].
  pose proof (seo_audit_at_most_100 (Axios.load (Axios.data response))).
  split; [lia | apply seo_getGrade_graded].
Qed.

Lemma performance_well_scored (url : string) (get : Axios.Outcome) (loadTime : Z)
  (r : DimensionResult.t _) :
  performanceService.analyzePerformance url get loadTime = Return r -> well_scored r.
Proof.
  destruct get as [response | m]; [| discriminate].
  intros E. injection E as <-. unfold well_scored. cbn [DimensionResult.score DimensionResult.grade].
  pose proof (performance_audit_at_most_100 response loadTime).
  split; [lia | apply performance_getGrade_graded].
Qed.

Lemma accessibility_well_scored (url : string) (get : Axios.Outcome) (r : DimensionResult.t _) :
  accessibilityService.analyzeAccessibility url get = Return r -> well_scored r.
Proof.
  destruct get as [response | m]; [| discriminate].
  intros E. injection E as <-. unfold well_scored. cbn [DimensionResult.score DimensionResult.grade].
  pose proof (accessibility_audit_at_most_100 (Axios.load (Axios.data response))).
  split; [lia | apply accessibility_getGrade_graded].
Qed.

Lemma bestPractices_well_scored (url : string) (get : Axios.Outcome) (hostname : Throws string)
  (r : DimensionResult.t _) :
  bestPracticesService.analyzeBestPractices url get hostname = Return r -> well_scored r.
Proof.
  destruct get as [response | m]; [| discriminate].
  destruct hostname as [host | m]; [| discriminate].
  intros E. injection E as <-. unfold well_scored. cbn [DimensionResult.score DimensionResult.grade].
  pose proof (bestPractices_audit_at_most_100 url response host).
  split; [lia | apply bestPractices_getGrade_graded].
Qed.

Lemma contribution_bounds {D : Type} (p : Throws (DimensionResult.t D)) :
  (forall r, p = Return r -> well_scored r) -> 0 <= contribution p <= 100.
Proof.
  intros H. destruct p as [r | m]; cbn; [| lia].
  destruct (H r eq_refl) as [B _]. exact B.
Qed.

(** C1. The score an analyzer reports is an integer between 0 and 100
    and the grade it reports is the letter of that score by the fixed
    thresholds, for each of the four analyzers; so are the score and
    the grade of the overall record of an audit.  When the deductions
    drive the running total of an analyzer below 0, where the score is
    clamped and the grade computed from the total itself, the reported
    score is 0 and the reported grade is F. *)
Theorem reported_score_and_grade :
  (forall url get r, seoService.analyzeSEO url get = Return r -> well_scored r)
  /\ (forall url get loadTime r,
         performanceService.analyzePerformance url get loadTime = Return r -> well_scored r)
  /\ (forall url get r,
         accessibilityService.analyzeAccessibility url get = Return r -> well_scored r)
  /\ (forall url get hostname r,
         bestPracticesService.analyzeBestPractices url get hostname = Return r ->
         well_scored r)
  /\ (forall url w,
         exists a,
           auditService.runFullAudit url w = Return a
           /\ 0 <= auditService.Overall.score (auditService.AuditResults.overall a) <= 100
           /\ graded (auditService.Overall.score (auditService.AuditResults.overall a))
                     (auditService.Overall.grade (auditService.AuditResults.overall a)))
  /\ (forall url response r,
         accessibilityService.analyzeAccessibility url (Axios.Resolved response) = Return r ->
         score (accessibilityService.audit (Axios.load (Axios.data response))) < 0 ->
         DimensionResult.score r = 0 /\ DimensionResult.grade r = Grade.F)
  /\ (forall url response hostname r,
         bestPracticesService.analyzeBestPractices url (Axios.Resolved response)
           (Return hostname) = Return r ->
         score (bestPracticesService.audit url response hostname) < 0 ->
         DimensionResult.score r = 0 /\ DimensionResult.grade r = Grade.F).
Proof.
  split; [exact seo_well_scored |].
  split; [exact performance_well_scored |].
  split; [exact accessibility_well_scored |].
  split; [exact bestPractices_well_scored |].
  split; [| split].
  - intros url w. rewrite runFullAudit_returns. eexists. split; [reflexivity |].
    cbn [auditService.AuditResults.overall auditService.Overall.score
         auditService.Overall.grade].
    split; [| apply audit_getGrade_graded].
    rewrite overallScore_four.
    pose proof (contribution_bounds _ (seo_well_scored url (auditService.World.seoGet w))).
    pose proof (contribution_bounds _
                  (performance_well_scored url (auditService.World.performanceGet w)
                     (auditService.World.loadTime w))).
    pose proof (contribution_bounds _
                  (accessibility_well_scored url (auditService.World.accessibilityGet w))).
    pose proof (contribution_bounds _
                  (bestPractices_well_scored url (auditService.World.bestPracticesGet w)
                     (auditService.World.hostname w))).
    split.
    + apply Z.div_pos; lia.
    + apply Z.lt_succ_r. apply Z.div_lt_upper_bound; lia.
  - intros url response r E Hneg. injection E as <-.
    cbn [DimensionResult.score DimensionResult.grade]. split; [lia |].
    pose proof (accessibility_getGrade_graded
                  (score (accessibilityService.audit (Axios.load (Axios.data response)))))
      as G.
    destruct (accessibilityService.getGrade _); cbn in G; try lia; reflexivity.
  - intros url response hostname r E Hneg. injection E as <-.
    cbn [DimensionResult.score DimensionResult.grade]. split; [lia |].
    pose proof (bestPractices_getGrade_graded
                  (score (bestPracticesService.audit url response hostname))) as G.
    destruct (bestPracticesService.getGrade _); cbn in G; try lia; reflexivity.
Qed.

(** C1 on a page of twenty-five unlabelled inputs: the running total
    of the accessibility analyzer is -61, the reported score 0 and the
    reported grade F. *)
Lemma reported_score_and_grade_witness :
  score (accessibilityService.audit SampleWorld.unlabelled) = -61
  /\ exists r,
       accessibilityService.analyzeAccessibility "https://example.com/"
         (Axios.Resolved (Sample.respond SampleWorld.unlabelled)) = Return r
       /\ well_scored r
       /\ DimensionResult.score r = 0
       /\ DimensionResult.grade r = Grade.F.
Proof.
  split; [reflexivity |].
  destruct reported_score_and_grade as [_ [_ [Ha [_ [_ [Hneg _]]]]]].
  eexists. split; [reflexivity |]. split.
  - apply (Ha "https://example.com/"
              (Axios.Resolved (Sample.respond SampleWorld.unlabelled))). reflexivity.
  - apply (Hneg "https://example.com/" (Sample.respond SampleWorld.unlabelled));
      reflexivity.
Defined.

(** C2. The overall score of an audit is the mean of the four dimension
    scores, a failed dimension counting for 0, rounded to the nearest
    integer (upwards from a half), and the overall grade is the letter
    of that rounded score. *)
Theorem overall_score_is_rounded_mean (url : string) (w : auditService.World.t) :
  let seo := contribution (seoService.analyzeSEO url (auditService.World.seoGet w)) in
  let performance :=
    contribution (performanceService.analyzePerformance url
                    (auditService.World.performanceGet w) (auditService.World.loadTime w)) in
  let accessibility :=
    contribution (accessibilityService.analyzeAccessibility url
                    (auditService.World.accessibilityGet w)) in
  let bestPractices :=
    contribution (bestPracticesService.analyzeBestPractices url
                    (auditService.World.bestPracticesGet w)
                    (auditService.World.hostname w)) in
  exists a,
    auditService.runFullAudit url w = Return a
    /\ auditService.Dimension.score (auditService.AuditResults.seo a) = seo
    /\ auditService.Dimension.score (auditService.AuditResults.performance a) = performance
    /\ auditService.Dimension.score (auditService.AuditResults.accessibility a)
       = accessibility
    /\ auditService.Dimension.score (auditService.AuditResults.bestPractices a)
       = bestPractices
    /\ rounded (mean [seo; performance; accessibility; bestPractices])
               (auditService.Overall.score (auditService.AuditResults.overall a))
    /\ auditService.Overall.score (auditService.AuditResults.overall a)
       = (seo + performance + accessibility + bestPractices + 2) / 4
    /\ graded (auditService.Overall.score (auditService.AuditResults.overall a))
              (auditService.Overall.grade (auditService.AuditResults.overall a)).
Proof.
  intros seo performance accessibility bestPractices.
  rewrite runFullAudit_returns. eexists. split; [reflexivity |].
  cbn [auditService.AuditResults.overall auditService.AuditResults.seo
       auditService.AuditResults.performance auditService.AuditResults.accessibility
       auditService.AuditResults.bestPractices
       auditService.Overall.score auditService.Overall.grade].
  rewrite !score_contribution.
  repeat (split; [reflexivity |]).
  split; [apply overallScore_rounded |].
  split; [apply overallScore_four | apply audit_getGrade_graded].
Qed.

(** C2 where the mean lies halfway: with the performance request timed
    out and the three other scores 67, 97 and 62, the mean is 56.5 and
    the overall score 57, grade F. *)
Lemma overall_score_is_rounded_mean_witness :
  exists a,
    auditService.runFullAudit "https://example.com/" SampleWorld.performanceDown = Return a
    /\ auditService.Overall.score (auditService.AuditResults.overall a)
       = (67 + 0 + 97 + 62 + 2) / 4
    /\ auditService.Overall.score (auditService.AuditResults.overall a) = 57.
Proof.
  destruct (overall_score_is_rounded_mean "https://example.com/" SampleWorld.performanceDown)
    as [a [E [_ [_ [_ [_ [_ [Hs _]]]]]]]].
  exists a. split; [exact E |]. split; [exact Hs |]. rewrite Hs. reflexivity.
Defined.

(** C3. When exactly one analyzer throws, the audit still returns: the
    slot of each dimension holds what its analyzer returns when run
    alone, or, for the one that threw, the placeholder with the
    message, score 0 and no issues, recommendations or details;
    exactly one slot holds a placeholder; and [totalIssues] is the
    number of issues of the three results. *)
Theorem one_failure_is_isolated (url : string) (w : auditService.World.t) :
  let seo := seoService.analyzeSEO url (auditService.World.seoGet w) in
  let performance :=
    performanceService.analyzePerformance url (auditService.World.performanceGet w)
      (auditService.World.loadTime w) in
  let accessibility :=
    accessibilityService.analyzeAccessibility url (auditService.World.accessibilityGet w) in
  let bestPractices :=
    bestPracticesService.analyzeBestPractices url (auditService.World.bestPracticesGet w)
      (auditService.World.hostname w) in
  raised [ failed seo; failed performance; failed accessibility; failed bestPractices ]
  = 1%nat ->
  exists a,
    auditService.runFullAudit url w = Return a
    /\ reported seo (auditService.AuditResults.seo a)
    /\ reported performance (auditService.AuditResults.performance a)
    /\ reported accessibility (auditService.AuditResults.accessibility a)
    /\ reported bestPractices (auditService.AuditResults.bestPractices a)
    /\ raised [ isPlaceholder (auditService.AuditResults.seo a);
                isPlaceholder (auditService.AuditResults.performance a);
                isPlaceholder (auditService.AuditResults.accessibility a);
                isPlaceholder (auditService.AuditResults.bestPractices a) ] = 1%nat
    /\ auditService.Summary.totalIssues (auditService.AuditResults.summary a)
       = (found seo + found performance + found accessibility + found bestPractices)%nat.
Proof.
  intros seo performance accessibility bestPractices One.
  rewrite runFullAudit_returns. eexists. split; [reflexivity |].
  cbn [auditService.AuditResults.seo auditService.AuditResults.performance
       auditService.AuditResults.accessibility auditService.AuditResults.bestPractices
       auditService.AuditResults.summary auditService.Summary.totalIssues].
  repeat (split; [apply catch_reported |]).
  rewrite !catch_isPlaceholder. split; [exact One | reflexivity].
Qed.

(** C3 where the performance request times out and the three other
    analyzers get a page: one placeholder, three results with their own
    scores, and the 11 issues of the three results. *)
Lemma one_failure_is_isolated_witness :
  exists a,
    auditService.runFullAudit "https://example.com/" SampleWorld.performanceDown = Return a
    /\ auditService.AuditResults.performance a
       = auditService.Dimension.Placeholder
           "Performance analysis failed: timeout of 15000ms exceeded" 0
    /\ isPlaceholder (auditService.AuditResults.accessibility a) = false
    /\ auditService.Dimension.score (auditService.AuditResults.accessibility a) = 97
    /\ auditService.Summary.totalIssues (auditService.AuditResults.summary a) = 11%nat.
Proof.
  destruct (one_failure_is_isolated "https://example.com/" SampleWorld.performanceDown
              eq_refl)
    as [a [E [_ [Hp [Ha [_ [_ Ht]]]]]]].
  exists a. split; [exact E |].
  split; [exact (proj1 Hp) |].
  cbn in Ha. rewrite Ha.
  split; [reflexivity |]. split; [reflexivity | exact Ht].
Defined.

(** C4. When all four analyzers throw, the audit still returns a
    report: every slot holds the placeholder of its analyzer, the
    overall score is 0, the overall grade F, and [totalIssues] 0. *)
Theorem all_failures_still_report (url : string) (w : auditService.World.t)
  (m1 m2 m3 m4 : string) :
  seoService.analyzeSEO url (auditService.World.seoGet w) = Throw m1 ->
  performanceService.analyzePerformance url (auditService.World.performanceGet w)
    (auditService.World.loadTime w) = Throw m2 ->
  accessibilityService.analyzeAccessibility url (auditService.World.accessibilityGet w)
  = Throw m3 ->
  bestPracticesService.analyzeBestPractices url (auditService.World.bestPracticesGet w)
    (auditService.World.hostname w) = Throw m4 ->
  exists a,
    auditService.runFullAudit url w = Return a
    /\ auditService.AuditResults.seo a = auditService.Dimension.Placeholder m1 0
    /\ auditService.AuditResults.performance a = auditService.Dimension.Placeholder m2 0
    /\ auditService.AuditResults.accessibility a = auditService.Dimension.Placeholder m3 0
    /\ auditService.AuditResults.bestPractices a = auditService.Dimension.Placeholder m4 0
    /\ auditService.Overall.score (auditService.AuditResults.overall a) = 0
    /\ auditService.Overall.grade (auditService.AuditResults.overall a) = Grade.F
    /\ auditService.Summary.totalIssues (auditService.AuditResults.summary a) = 0%nat.
Proof.
  intros E1 E2 E3 E4.
  rewrite runFullAudit_returns, E1, E2, E3, E4.
  eexists. split; [reflexivity |]. repeat split.
Qed.

(** C4 where every request times out. *)
Lemma all_failures_still_report_witness :
  exists a,
    auditService.runFullAudit "https://example.com/" SampleWorld.allDown = Return a
    /\ auditService.AuditResults.seo a
       = auditService.Dimension.Placeholder
           "SEO analysis failed: timeout of 10000ms exceeded" 0
    /\ auditService.Overall.score (auditService.AuditResults.overall a) = 0
    /\ auditService.Overall.grade (auditService.AuditResults.overall a) = Grade.F
    /\ auditService.Summary.totalIssues (auditService.AuditResults.summary a) = 0%nat.
Proof.
  destruct (all_failures_still_report "https://example.com/" SampleWorld.allDown
              _ _ _ _ eq_refl eq_refl eq_refl eq_refl)
    as [a [E [Hs [_ [_ [_ [Ho [Hg Ht]]]]]]]].
  exists a. repeat split; assumption.
Defined.

(** ** Further properties *)


(** The reserved fields of the summary: [criticalIssues] is 0 and
    [recommendations] is empty in every report. *)
Theorem reserved_fields_stay_default (url : string) (w : auditService.World.t) :
  exists a,
    auditService.runFullAudit url w = Return a
    /\ auditService.Summary.criticalIssues (auditService.AuditResults.summary a) = 0%nat
    /\ auditService.Summary.recommendations (auditService.AuditResults.summary a) = [].
Proof.
  eexists. split; [reflexivity |]. split; reflexivity.
Qed.

(** ** Analyzers as lists of checks *)

Lemma seo_audit_runs (doc : Cheerio.document) :
  seoService.audit doc = runChecks (seoChecks doc).
Proof. reflexivity. Qed.

Lemma performance_audit_runs (response : Axios.Response) (loadTime : Z) :
  performanceService.audit response loadTime = runChecks (performanceChecks response loadTime).
Proof. reflexivity. Qed.

Lemma accessibility_audit_runs (doc : Cheerio.document) :
  accessibilityService.audit doc = runChecks (accessibilityChecks doc).
Proof. rewrite accessibility_audit_chain. reflexivity. Qed.

Lemma bestPractices_audit_runs (url : string) (response : Axios.Response) (hostname : string) :
  bestPracticesService.audit url response hostname
  = runChecks (bestPracticesChecks url response hostname).
Proof. reflexivity. Qed.

Lemma runChecks_uniform (checks : list (Tally -> Tally)) :
  Forall uniform checks -> uniform (fun t => fold_left (fun t check => check t) checks t).
Proof.
  intros U. induction checks as [| c checks IH] using rev_ind.
  - apply skip_uniform.
  - apply Forall_app in U. destruct U as [U Uc]. inversion Uc as [| ? ? Hc _]; subst.
    apply (uniform_ext (fun t => c (fold_left (fun t check => check t) checks t))).
    + intros t. rewrite fold_left_app. reflexivity.
    + apply (uniform_compose _ c (IH U) Hc).
Qed.

Lemma fold_checks_cons (c : Tally -> Tally) (checks : list (Tally -> Tally)) (t : Tally) :
  Forall uniform (c :: checks) ->
  fold_left (fun t check => check t) (c :: checks) t
  = {| issues := (issues t ++ emitted c ++ List.concat (map emitted checks))%list;
       score := score t - deduction c - totalOf (map deduction checks) |}.
Proof.
  revert c t. induction checks as [| c' checks IH]; intros c t U.
  - inversion U as [| ? ? Hc _]; subst. cbn [fold_left map List.concat totalOf fold_right].
    rewrite (Hc t), app_nil_r. f_equal. lia.
  - inversion U as [| ? ? Hc U']; subst.
    change (fold_left (fun t check => check t) (c :: c' :: checks) t)
      with (fold_left (fun t check => check t) (c' :: checks) (c t)).
    rewrite (IH c' (c t) U'), (Hc t). cbn [issues score map List.concat totalOf fold_right].
    fold (totalOf (map deduction checks)).
    f_equal; [now rewrite <- app_assoc | lia].
Qed.

(** Running uniform checks: the deductions add up and the issues
    follow each other. *)
Lemma runChecks_score (checks : list (Tally -> Tally)) :
  Forall uniform checks -> score (runChecks checks) = 100 - totalOf (map deduction checks).
Proof.
  intros U. unfold runChecks. destruct checks as [| c checks].
  - reflexivity.
  - rewrite (fold_checks_cons c checks start U). unfold totalOf, start.
    cbn [score map fold_right]. lia.
Qed.

Lemma runChecks_issues (checks : list (Tally -> Tally)) :
  Forall uniform checks -> issues (runChecks checks) = List.concat (map emitted checks).
Proof.
  intros U. unfold runChecks. destruct checks as [| c checks].
  - reflexivity.
  - rewrite (fold_checks_cons c checks start U). reflexivity.
Qed.

(** Decisive checks: nothing is taken off without an issue, and no
    issue comes without a cost. *)
Lemma decisive_total (checks : list (Tally -> Tally)) :
  Forall decisive checks ->
  0 <= totalOf (map deduction checks)
  /\ (totalOf (map deduction checks) = 0 <-> List.concat (map emitted checks) = [])
  /\ (List.length (List.concat (map emitted checks)) <= List.length checks)%nat.
Proof.
  induction 1 as [| c checks Hc _ [IH0 [IH1 IH2]]]; cbn [map totalOf fold_right List.concat].
  - repeat split; auto; lia.
  - fold (totalOf (map deduction checks)).
    destruct Hc as [[E D] | [[i E] D]]; rewrite E; cbn [app List.length].
    + rewrite D. split; [lia |]. split; [| lia].
      rewrite <- IH1. split; lia.
    + split; [lia |]. split; [| lia].
      split; [lia | discriminate].
Qed.

(** ** What holds of every check *)

Create HintDb checks.

#[local] Hint Unfold
  seoService.checkTitle seoService.checkMetaDescription seoService.checkH1
  seoService.checkImages seoService.checkCanonical seoService.checkOpenGraph
  performanceService.checkLoadTime performanceService.checkSize
  performanceService.checkCompression performanceService.checkCaching
  performanceService.checkCDN
  accessibilityService.checkImages accessibilityService.checkH1
  accessibilityService.checkHierarchy accessibilityService.checkLabels
  accessibilityService.checkContrast accessibilityService.checkKeyboard
  accessibilityService.checkLandmarks accessibilityService.checkLanguage
  accessibilityService.checkSkipLinks
  bestPracticesService.checkHTTPS checkSecurityHeader bestPracticesService.checkViewport
  bestPracticesService.checkFavicon bestPracticesService.checkExternalLinks
  bestPracticesService.checkMixedContent bestPracticesService.checkDeprecated
  bestPracticesService.checkInlineStyles bestPracticesService.checkInlineScripts
  : checks.

(** Prove a property of each check of a list, one check at a time. *)
Ltac each_check tac :=
  unfold seoChecks, performanceChecks, accessibilityChecks, bestPracticesChecks,
    bestPracticesService.securityHeaders;
  cbv zeta; cbn [map app];
  repeat (apply Forall_cons; [autounfold with checks; tac |]);
  apply Forall_nil.

Ltac branches :=
  repeat match goal with
         | |- context [if ?c then _ else _] => let E := fresh "E" in destruct c eqn:E
         end.

Ltac uniform_branch :=
  branches; cbn [snd fst]; first [ apply flag_uniform | apply skip_uniform ].

Ltac positive :=
  repeat match goal with
         | H : (_ <? _)%nat = true |- _ => apply Nat.ltb_lt in H
         end;
  lia.

Ltac decisive_branch :=
  branches; unfold decisive, emitted, deduction, flag, start; cbv beta;
  cbn [issues score app snd fst];
  first [ left; split; [reflexivity | lia]
        | right; split; [eexists; reflexivity | positive] ].

Ltac coherent_branch :=
  branches; unfold emitted, flag, start; cbv beta; cbn [issues app snd fst];
  repeat constructor; cbn [type impact]; try congruence; try discriminate.

Lemma seoChecks_uniform (doc : Cheerio.document) : Forall uniform (seoChecks doc).
Proof. each_check uniform_branch. Qed.

Lemma performanceChecks_uniform (response : Axios.Response) (loadTime : Z) :
  Forall uniform (performanceChecks response loadTime).
Proof. each_check uniform_branch. Qed.

Lemma accessibilityChecks_uniform (doc : Cheerio.document) :
  Forall uniform (accessibilityChecks doc).
Proof. each_check uniform_branch. Qed.

Lemma bestPracticesChecks_uniform (url : string) (response : Axios.Response)
  (hostname : string) : Forall uniform (bestPracticesChecks url response hostname).
Proof. each_check uniform_branch. Qed.

Lemma seoChecks_decisive (doc : Cheerio.document) : Forall decisive (seoChecks doc).
Proof. each_check decisive_branch. Qed.

Lemma performanceChecks_decisive (response : Axios.Response) (loadTime : Z) :
  Forall decisive (performanceChecks response loadTime).
Proof. each_check decisive_branch. Qed.

Lemma accessibilityChecks_decisive (doc : Cheerio.document) :
  Forall decisive (accessibilityChecks doc).
Proof. each_check decisive_branch. Qed.

Lemma bestPracticesChecks_decisive (url : string) (response : Axios.Response)
  (hostname : string) : Forall decisive (bestPracticesChecks url response hostname).
Proof. each_check decisive_branch. Qed.

Lemma seoChecks_coherent (doc : Cheerio.document) :
  Forall (fun check => Forall coherent (emitted check)) (seoChecks doc).
Proof. each_check coherent_branch. Qed.

Lemma performanceChecks_coherent (response : Axios.Response) (loadTime : Z) :
  Forall (fun check => Forall coherent (emitted check)) (performanceChecks response loadTime).
Proof. each_check coherent_branch. Qed.

Lemma accessibilityChecks_coherent (doc : Cheerio.document) :
  Forall (fun check => Forall coherent (emitted check)) (accessibilityChecks doc).
Proof. each_check coherent_branch. Qed.

Lemma bestPracticesChecks_coherent (url : string) (response : Axios.Response)
  (hostname : string) :
  Forall (fun check => Forall coherent (emitted check))
    (bestPracticesChecks url response hostname).
Proof. each_check coherent_branch. Qed.

Lemma perfect_iff_clean (checks : list (Tally -> Tally)) :
  Forall uniform checks -> Forall decisive checks ->
  (Z.max (score (runChecks checks)) 0 = 100 <-> issues (runChecks checks) = []).
Proof.
  intros U D. rewrite (runChecks_score checks U), (runChecks_issues checks U).
  destruct (decisive_total checks D) as [H0 [H1 _]].
  rewrite <- H1. split; lia.
Qed.

(** ** A perfect score means no issue *)


(** ** Severity of the issues *)

Lemma runChecks_coherent (checks : list (Tally -> Tally)) :
  Forall uniform checks ->
  Forall (fun check => Forall coherent (emitted check)) checks ->
  Forall coherent (issues (runChecks checks)).
Proof.
  intros U C. rewrite (runChecks_issues checks U).
  induction C as [| c checks Hc _ IH]; cbn [map List.concat]; [constructor |].
  apply Forall_app. split; [exact Hc |]. apply IH. inversion U; assumption.
Qed.

(** X2. In every result of the four analyzers, an issue is an error
    exactly when its impact is high, and an information always has low
    impact. *)
Theorem issue_severity_is_coherent :
  (forall url get r,
      seoService.analyzeSEO url get = Return r ->
      Forall coherent (DimensionResult.issues r))
  /\ (forall url get loadTime r,
         performanceService.analyzePerformance url get loadTime = Return r ->
         Forall coherent (DimensionResult.issues r))
  /\ (forall url get r,
         accessibilityService.analyzeAccessibility url get = Return r ->
         Forall coherent (DimensionResult.issues r))
  /\ (forall url get hostname r,
         bestPracticesService.analyzeBestPractices url get hostname = Return r ->
         Forall coherent (DimensionResult.issues r)).
Proof.
  split; [| split; [| split]].
  - intros url [response | m] r E; [| discriminate]. injection E as <-.
    cbn [DimensionResult.issues]. rewrite seo_audit_runs.
    apply runChecks_coherent; [apply seoChecks_uniform | apply seoChecks_coherent].
  - intros url [response | m] loadTime r E; [| discriminate]. injection E as <-.
    cbn [DimensionResult.issues]. rewrite performance_audit_runs.
    apply runChecks_coherent;
      [apply performanceChecks_uniform | apply performanceChecks_coherent].
  - intros url [response | m] r E; [| discriminate]. injection E as <-.
    cbn [DimensionResult.issues]. rewrite accessibility_audit_runs.
    apply runChecks_coherent;
      [apply accessibilityChecks_uniform | apply accessibilityChecks_coherent].
  - intros url [response | m] [hostname | m'] r E; try discriminate. injection E as <-.
    cbn [DimensionResult.issues]. rewrite bestPractices_audit_runs.
    apply runChecks_coherent;
      [apply bestPracticesChecks_uniform | apply bestPracticesChecks_coherent].
Qed.

(** X2 on the best-practices result of [SampleLinks.mixed]: its seven
    issues are coherent. *)
Lemma issue_severity_is_coherent_witness :
  exists r,
    bestPracticesService.analyzeBestPractices "https://example.com/"
      (Axios.Resolved (Sample.respond SampleLinks.mixed)) (Return "example.com") = Return r
    /\ List.length (DimensionResult.issues r) = 7%nat
    /\ Forall coherent (DimensionResult.issues r).
Proof.
  destruct issue_severity_is_coherent as [_ [_ [_ H]]].
  eexists. split; [reflexivity |]. split; [reflexivity |].
  apply (H "https://example.com/" (Axios.Resolved (Sample.respond SampleLinks.mixed))
           (Return "example.com")). reflexivity.
Defined.

(** ** Pages without a tabindex *)

Lemma filter_nonempty {X : Type} (p : X -> bool) (l : list X) :
  (0 < List.length (filter p l))%nat -> exists x, In x l /\ p x = true.
Proof.
  destruct (filter p l) as [| x rest] eqn:E; cbn; [lia |]. intros _.
  exists x. apply filter_In. rewrite E. left. reflexivity.
Qed.

Lemma filter_inhabited {X : Type} (p : X -> bool) (l : list X) (x : X) :
  In x l -> p x = true -> (0 < List.length (filter p l))%nat.
Proof.
  intros Hin Hp. assert (H : In x (filter p l)) by (apply filter_In; auto).
  destruct (filter p l); [destruct H | cbn; lia].
Qed.

(** A skip link is an anchor, and an anchor is focusable. *)
Lemma skip_link_is_focusable (doc : Cheerio.document) :
  (0 < accessibilityService.skipLinks doc)%nat ->
  (0 < accessibilityService.focusableElements doc)%nat.
Proof.
  unfold accessibilityService.skipLinks, accessibilityService.focusableElements.
  intros H. apply filter_nonempty in H. destruct H as [el [Hin _]].
  unfold Cheerio.select in Hin. apply filter_In in Hin. destruct Hin as [Hel Ha].
  unfold Cheerio.and_ in Ha. apply andb_true_iff in Ha. destruct Ha as [Ha _].
  unfold Cheerio.select. apply (filter_inhabited _ _ el Hel).
  unfold Cheerio.anyOf. cbn [existsb]. rewrite Ha. reflexivity.
Qed.

Lemma decisive_nonneg (check : Tally -> Tally) : decisive check -> 0 <= deduction check.
Proof.
  intros [[_ D] | [_ D]]; lia.
Qed.

(** The deductions of a list of decisive checks are not negative. *)
Ltac nonnegative D :=
  repeat (apply Forall_cons_iff in D;
          let H := fresh "N" in destruct D as [H D]; apply decisive_nonneg in H).



(** ** How low a score can fall *)


(** The HTTPS check and the mixed-content check never both fire. *)
Lemma https_or_mixed_content (isHTTPS : bool) (httpResources : nat) :
  0 <= deduction (bestPracticesService.checkHTTPS isHTTPS)
       + deduction (bestPracticesService.checkMixedContent isHTTPS httpResources) <= 20.
Proof.
  unfold bestPracticesService.checkHTTPS, bestPracticesService.checkMixedContent.
  destruct isHTTPS; cbn [negb]; cost.
Qed.

(** X5. The best-practices running total is at least 26 less 2 for
    each deprecated element: a page is taken 20 for not using HTTPS or
    15 for mixed content but never both, and the other checks take off
    at most 20, 15, 3, 10, 3 and 3.  The reported score is therefore 0
    only when at least thirteen deprecated elements are found. *)
Theorem bestPractices_score_floor (url : string) (response : Axios.Response)
  (hostname : string) :
  let doc := Axios.load (Axios.data response) in
  exists r,
    bestPracticesService.analyzeBestPractices url (Axios.Resolved response) (Return hostname)
    = Return r
    /\ 26 - 2 * Z.of_nat (bestPracticesService.deprecatedElements doc)
       <= score (bestPracticesService.audit url response hostname)
    /\ 26 - 2 * Z.of_nat (bestPracticesService.deprecatedElements doc)
       <= DimensionResult.score r
    /\ (DimensionResult.score r = 0 ->
        (13 <= bestPracticesService.deprecatedElements doc)%nat).
Proof.
  intros doc. eexists. split; [reflexivity |].
  cbn [DimensionResult.score]. fold doc.
  assert (H : 26 - 2 * Z.of_nat (bestPracticesService.deprecatedElements doc)
              <= score (bestPracticesService.audit url response hostname)).
  { rewrite bestPractices_audit_score. cbv zeta. fold doc.
    pose proof (https_or_mixed_content (bestPracticesService.isHTTPS url)
                  (bestPracticesService.httpResources doc)).
    assert (deduction (bestPracticesService.checkSecurityHeaders (Axios.headers response))
            <= 20)
      by (unfold bestPracticesService.checkSecurityHeaders,
            bestPracticesService.securityHeaders; cbn [fold_left fst snd]; cost).
    assert (deduction (bestPracticesService.checkViewport
                         (bestPracticesService.viewportMeta doc)) <= 15)
      by (unfold bestPracticesService.checkViewport; cost).
    assert (deduction (bestPracticesService.checkFavicon (bestPracticesService.favicon doc))
            <= 3)
      by (unfold bestPracticesService.checkFavicon; cost).
    assert (deduction (bestPracticesService.checkExternalLinks
                         (bestPracticesService.unsafeExternalLinks doc hostname)) <= 10)
      by (unfold bestPracticesService.checkExternalLinks; cost).
    assert (deduction (bestPracticesService.checkDeprecated
                         (bestPracticesService.deprecatedElements doc))
            <= 2 * Z.of_nat (bestPracticesService.deprecatedElements doc))
      by (unfold bestPracticesService.checkDeprecated; cost).
    assert (deduction (bestPracticesService.checkInlineStyles
                         (bestPracticesService.inlineStyles doc)) <= 3)
      by (unfold bestPracticesService.checkInlineStyles; cost).
    assert (deduction (bestPracticesService.checkInlineScripts
                         (bestPracticesService.inlineScripts doc)) <= 3)
      by (unfold bestPracticesService.checkInlineScripts; cost).
    lia. }
  split; [exact H |]. split; lia.
Qed.

(** Both floors are reached: a page without any input scores 29 for
    accessibility, and a page without any deprecated element, served
    over plain HTTP without a security header, scores 26 for best
    practices. *)
Lemma accessibility_floor_is_reached :
  accessibilityService.inputsWithoutLabels SampleFloor.inaccessible = 0%nat
  /\ score (accessibilityService.audit SampleFloor.inaccessible) = 29.
Proof. split; vm_compute; reflexivity. Qed.

Lemma bestPractices_floor_is_reached :
  bestPracticesService.deprecatedElements SampleFloor.careless = 0%nat
  /\ score (bestPracticesService.audit "http://example.com/"
              (Sample.respond SampleFloor.careless) "example.com") = 26.
Proof. split; vm_compute; reflexivity. Qed.

(** ** Page size and load time *)

(** [Math.round(contentSize / 1024)] on a byte count. *)
Lemma sizeInKB_rounds (n : N) :
  performanceService.sizeInKB n = (Z.of_N n + 512) / 1024.
Proof.
  unfold performanceService.sizeInKB, JS.Math_round.
  unfold Qdiv, Qinv, Qmult, Qplus, inject_Z, Qfloor. cbn [Qnum Qden].
  change (Z.pos (1 * 1024)) with 1024. change (Z.pos (1 * 1024 * 2)) with (1024 * 2).
  replace (Z.of_N n * 1 * 2 + 1 * 1024) with ((Z.of_N n + 512) * 2) by lia.
  apply Z.div_mul_cancel_r; lia.
Qed.

Lemma sizeInKB_above (n : N) (k : Z) :
  (performanceService.sizeInKB n >? k) = (1024 * k + 512 <=? Z.of_N n).
Proof.
  rewrite sizeInKB_rounds, Z.gtb_ltb.
  destruct (Z.leb_spec (1024 * k + 512) (Z.of_N n)) as [H | H].
  - apply Z.ltb_lt. apply Z.lt_le_trans with (k + 1); [lia |].
    apply Z.div_le_lower_bound; lia.
  - apply Z.ltb_ge. apply Z.lt_succ_r. apply Z.div_lt_upper_bound; lia.
Qed.

Lemma performance_audit_issues (response : Axios.Response) (loadTime : Z) :
  issues (performanceService.audit response loadTime)
  = (emitted (performanceService.checkLoadTime loadTime)
     ++ emitted (performanceService.checkSize
                   (performanceService.sizeInKB (Axios.byteLength (Axios.data response))))
     ++ emitted (performanceService.checkCompression (Axios.headers response))
     ++ emitted (performanceService.checkCaching (Axios.headers response))
     ++ emitted (performanceService.checkCDN
                   (performanceService.hasCDN (Axios.headers response))))%list.
Proof.
  rewrite performance_audit_runs,
    (runChecks_issues _ (performanceChecks_uniform response loadTime)).
  unfold performanceChecks. cbn [map List.concat]. rewrite app_nil_r. reflexivity.
Qed.




(** ** Advice on headings *)



(** ** The favicon *)

Lemma select_subsumed (doc : Cheerio.document) (p q : Cheerio.selector) :
  (forall el, p el = true -> q el = true) ->
  (0 <? List.length (Cheerio.select doc p))%nat = true ->
  (0 <? List.length (Cheerio.select doc q))%nat = true.
Proof.
  intros Hpq Hp. apply Nat.ltb_lt in Hp. apply Nat.ltb_lt.
  apply filter_nonempty in Hp. destruct Hp as [el [Hin Hel]].
  apply (filter_inhabited _ _ el Hin). apply Hpq. exact Hel.
Qed.


(** ** Failed dimensions and the overall score *)

Lemma failed_contributes_nothing {D : Type} (p : Throws (DimensionResult.t D)) :
  failed p = true -> contribution p = 0.
Proof.
  destruct p; [discriminate | reflexivity].
Qed.

Lemma capped_mean (c1 c2 c3 c4 : Z) (f1 f2 f3 f4 : bool) :
  0 <= c1 <= 100 -> 0 <= c2 <= 100 -> 0 <= c3 <= 100 -> 0 <= c4 <= 100 ->
  (f1 = true -> c1 = 0) -> (f2 = true -> c2 = 0) ->
  (f3 = true -> c3 = 0) -> (f4 = true -> c4 = 0) ->
  (c1 + c2 + c3 + c4 + 2) / 4 <= 100 - 25 * Z.of_nat (raised [f1; f2; f3; f4]).
Proof.
  intros B1 B2 B3 B4 F1 F2 F3 F4.
  apply Z.lt_succ_r. apply Z.div_lt_upper_bound; [lia |]. unfold raised.
  destruct f1; destruct f2; destruct f3; destruct f4; cbn [filter List.length];
    repeat match goal with
           | H : true = true -> _ |- _ => specialize (H eq_refl)
           end; lia.
Qed.

(** X10. Each failed dimension caps the overall score by 25 points:
    with [k] analyzers throwing, the overall score is at most
    [100 - 25 * k].  One failure rules out the grades A and B, two
    failures leave only F. *)
Theorem failures_cap_overall (url : string) (w : auditService.World.t) :
  let k :=
    raised
      [ failed (seoService.analyzeSEO url (auditService.World.seoGet w));
        failed (performanceService.analyzePerformance url
                  (auditService.World.performanceGet w) (auditService.World.loadTime w));
        failed (accessibilityService.analyzeAccessibility url
                  (auditService.World.accessibilityGet w));
        failed (bestPracticesService.analyzeBestPractices url
                  (auditService.World.bestPracticesGet w) (auditService.World.hostname w)) ]
  in
  exists a,
    auditService.runFullAudit url w = Return a
    /\ auditService.Overall.score (auditService.AuditResults.overall a)
       <= 100 - 25 * Z.of_nat k
    /\ ((1 <= k)%nat ->
        auditService.Overall.grade (auditService.AuditResults.overall a) <> Grade.A
        /\ auditService.Overall.grade (auditService.AuditResults.overall a) <> Grade.B)
    /\ ((2 <= k)%nat ->
        auditService.Overall.grade (auditService.AuditResults.overall a) = Grade.F).
Proof.
  intros k. rewrite runFullAudit_returns. eexists. split; [reflexivity |].
  cbn [auditService.AuditResults.overall auditService.Overall.score
       auditService.Overall.grade].
  rewrite overallScore_four.
  assert (Hcap : (contribution (seoService.analyzeSEO url (auditService.World.seoGet w))
                  + contribution
                      (performanceService.analyzePerformance url
                         (auditService.World.performanceGet w) (auditService.World.loadTime w))
                  + contribution
                      (accessibilityService.analyzeAccessibility url
                         (auditService.World.accessibilityGet w))
                  + contribution
                      (bestPracticesService.analyzeBestPractices url
                         (auditService.World.bestPracticesGet w)
                         (auditService.World.hostname w)) + 2) / 4
                 <= 100 - 25 * Z.of_nat k).
  { apply capped_mean.
    - apply contribution_bounds, seo_well_scored.
    - apply contribution_bounds, performance_well_scored.
    - apply contribution_bounds, accessibility_well_scored.
    - apply contribution_bounds, bestPractices_well_scored.
    - apply failed_contributes_nothing.
    - apply failed_contributes_nothing.
    - apply failed_contributes_nothing.
    - apply failed_contributes_nothing. }
  split; [exact Hcap |].
  match type of Hcap with ?s <= _ => pose proof (audit_getGrade_graded s) as G end.
  split.
  - intros Hk. destruct (auditService.getGrade _); cbn in G;
      split; intros Hg; try discriminate Hg; lia.
  - intros Hk. destruct (auditService.getGrade _); cbn in G; try reflexivity; lia.
Qed.

(** X10 where the performance request times out: the overall score is
    57, below the cap of 75. *)
Lemma failures_cap_overall_witness :
  exists a,
    auditService.runFullAudit "https://example.com/" SampleWorld.performanceDown = Return a
    /\ auditService.Overall.score (auditService.AuditResults.overall a) <= 75
    /\ auditService.Overall.grade (auditService.AuditResults.overall a) <> Grade.A
    /\ auditService.Overall.grade (auditService.AuditResults.overall a) <> Grade.B.
Proof.
  destruct (failures_cap_overall "https://example.com/" SampleWorld.performanceDown)
    as [a [E [Hs [Hg _]]]].
  exists a. split; [exact E |]. split; [exact Hs |]. apply Hg. apply Nat.leb_le. reflexivity.
Defined.

(** ** The total number of issues *)

Lemma clean_result (checks : list (Tally -> Tally)) :
  Forall uniform checks -> Forall decisive checks ->
  (List.length (issues (runChecks checks)) = 0%nat
   <-> Z.max (score (runChecks checks)) 0 = 100)
  /\ (List.length (issues (runChecks checks)) <= List.length checks)%nat.
Proof.
  intros U D. split.
  - rewrite (perfect_iff_clean checks U D). apply length_zero_iff_nil.
  - rewrite (runChecks_issues checks U). apply (decisive_total checks D).
Qed.

Lemma seo_found (url : string) (get : Axios.Outcome) :
  (found (seoService.analyzeSEO url get) = 0%nat
   <-> failed (seoService.analyzeSEO url get) = true
       \/ contribution (seoService.analyzeSEO url get) = 100)
  /\ (found (seoService.analyzeSEO url get) <= 6)%nat.
Proof.
  destruct get as [response | m]; [| cbn; split; [tauto | lia]].
  cbn [seoService.analyzeSEO found failed contribution DimensionResult.issues
       DimensionResult.score].
  rewrite seo_audit_runs.
  destruct (clean_result _ (seoChecks_uniform (Axios.load (Axios.data response)))
              (seoChecks_decisive (Axios.load (Axios.data response)))) as [H1 H2].
  split; [rewrite H1; intuition discriminate | exact H2].
Qed.

Lemma performance_found (url : string) (get : Axios.Outcome) (loadTime : Z) :
  (found (performanceService.analyzePerformance url get loadTime) = 0%nat
   <-> failed (performanceService.analyzePerformance url get loadTime) = true
       \/ contribution (performanceService.analyzePerformance url get loadTime) = 100)
  /\ (found (performanceService.analyzePerformance url get loadTime) <= 5)%nat.
Proof.
  destruct get as [response | m]; [| cbn; split; [tauto | lia]].
  cbn [performanceService.analyzePerformance found failed contribution
       DimensionResult.issues DimensionResult.score].
  rewrite performance_audit_runs.
  destruct (clean_result _ (performanceChecks_uniform response loadTime)
              (performanceChecks_decisive response loadTime)) as [H1 H2].
  split; [rewrite H1; intuition discriminate | exact H2].
Qed.

Lemma accessibility_found (url : string) (get : Axios.Outcome) :
  (found (accessibilityService.analyzeAccessibility url get) = 0%nat
   <-> failed (accessibilityService.analyzeAccessibility url get) = true
       \/ contribution (accessibilityService.analyzeAccessibility url get) = 100)
  /\ (found (accessibilityService.analyzeAccessibility url get) <= 9)%nat.
Proof.
  destruct get as [response | m]; [| cbn; split; [tauto | lia]].
  cbn [accessibilityService.analyzeAccessibility found failed contribution
       DimensionResult.issues DimensionResult.score].
  rewrite accessibility_audit_runs.
  destruct (clean_result _ (accessibilityChecks_uniform (Axios.load (Axios.data response)))
              (accessibilityChecks_decisive (Axios.load (Axios.data response))))
    as [H1 H2].
  split; [rewrite H1; intuition discriminate | exact H2].
Qed.

Lemma bestPractices_found (url : string) (get : Axios.Outcome) (hostname : Throws string) :
  (found (bestPracticesService.analyzeBestPractices url get hostname) = 0%nat
   <-> failed (bestPracticesService.analyzeBestPractices url get hostname) = true
       \/ contribution (bestPracticesService.analyzeBestPractices url get hostname) = 100)
  /\ (found (bestPracticesService.analyzeBestPractices url get hostname) <= 12)%nat.
Proof.
  destruct get as [response | m]; [| cbn; split; [tauto | lia]].
  destruct hostname as [host | m]; [| cbn; split; [tauto | lia]].
  cbn [bestPracticesService.analyzeBestPractices found failed contribution
       DimensionResult.issues DimensionResult.score].
  rewrite bestPractices_audit_runs.
  destruct (clean_result _ (bestPracticesChecks_uniform url response host)
              (bestPracticesChecks_decisive url response host)) as [H1 H2].
  split; [rewrite H1; intuition discriminate | exact H2].
Qed.

(** X11. [totalIssues] is at most 32 (6, 5, 9 and 12 checks raise at
    most one issue each), and it is 0 exactly when every dimension
    either failed or scored 100. *)
Theorem total_issues_zero_and_bound (url : string) (w : auditService.World.t) :
  let seo := seoService.analyzeSEO url (auditService.World.seoGet w) in
  let performance :=
    performanceService.analyzePerformance url (auditService.World.performanceGet w)
      (auditService.World.loadTime w) in
  let accessibility :=
    accessibilityService.analyzeAccessibility url (auditService.World.accessibilityGet w) in
  let bestPractices :=
    bestPracticesService.analyzeBestPractices url (auditService.World.bestPracticesGet w)
      (auditService.World.hostname w) in
  exists a,
    auditService.runFullAudit url w = Return a
    /\ (auditService.Summary.totalIssues (auditService.AuditResults.summary a) <= 32)%nat
    /\ (auditService.Summary.totalIssues (auditService.AuditResults.summary a) = 0%nat
        <-> (failed seo = true \/ contribution seo = 100)
            /\ (failed performance = true \/ contribution performance = 100)
            /\ (failed accessibility = true \/ contribution accessibility = 100)
            /\ (failed bestPractices = true \/ contribution bestPractices = 100)).
Proof.
  intros seo performance accessibility bestPractices.
  rewrite runFullAudit_returns. eexists. split; [reflexivity |].
  cbn [auditService.AuditResults.summary auditService.Summary.totalIssues].
  fold seo performance accessibility bestPractices.
  destruct (seo_found url (auditService.World.seoGet w)) as [S1 S2].
  destruct (performance_found url (auditService.World.performanceGet w)
              (auditService.World.loadTime w)) as [P1 P2].
  destruct (accessibility_found url (auditService.World.accessibilityGet w)) as [A1 A2].
  destruct (bestPractices_found url (auditService.World.bestPracticesGet w)
              (auditService.World.hostname w)) as [B1 B2].
  fold seo in S1, S2. fold performance in P1, P2.
  fold accessibility in A1, A2. fold bestPractices in B1, B2.
  split; [lia |].
  rewrite <- S1, <- P1, <- A1, <- B1. lia.
Qed.

(** ** Sanitizing an address *)

Lemma trimEnd_keeps (c : ascii) (s : string) :
  JS.isWhiteSpace c = false -> JS.trimEnd (String c s) = String c (JS.trimEnd s).
Proof.
  intros H. cbn [JS.trimEnd]. rewrite H. reflexivity.
Qed.

Lemma trimStart_keeps (c : ascii) (s : string) :
  JS.isWhiteSpace c = false -> JS.trimStart (String c s) = String c s.
Proof.
  intros H. cbn [JS.trimStart]. rewrite H. reflexivity.
Qed.

Lemma trimEnd_idempotent (s : string) : JS.trimEnd (JS.trimEnd s) = JS.trimEnd s.
Proof.
  induction s as [| c s IH]; [reflexivity |].
  cbn [JS.trimEnd].
  destruct (JS.isWhiteSpace c && String.eqb (JS.trimEnd s) "") eqn:E; [reflexivity |].
  cbn [JS.trimEnd]. rewrite IH, E. reflexivity.
Qed.

Lemma trimStart_head (s : string) :
  JS.trimStart s = ""
  \/ exists c r, JS.trimStart s = String c r /\ JS.isWhiteSpace c = false.
Proof.
  induction s as [| c s IH]; [left; reflexivity |].
  cbn [JS.trimStart]. destruct (JS.isWhiteSpace c) eqn:E; [exact IH |].
  right. exists c, s. split; [reflexivity | exact E].
Qed.

Lemma trim_idempotent (s : string) : JS.trim (JS.trim s) = JS.trim s.
Proof.
  unfold JS.trim. destruct (trimStart_head s) as [E | [c [r [E W]]]]; rewrite E.
  - reflexivity.
  - rewrite (trimEnd_keeps c r W). cbn [JS.trimStart]. rewrite W.
    rewrite (trimEnd_keeps c _ W), trimEnd_idempotent. reflexivity.
Qed.

Lemma trim_after_scheme (s : string) :
  JS.trim ("https://" ++ JS.trim s) = "https://" ++ JS.trim s.
Proof.
  unfold JS.trim at 1. cbn [append].
  rewrite trimStart_keeps by reflexivity.
  rewrite !trimEnd_keeps by reflexivity.
  unfold JS.trim. rewrite trimEnd_idempotent. reflexivity.
Qed.

Lemma starts_with_scheme (s : string) : JS.startsWith ("https://" ++ s) "https://" = true.
Proof.
  unfold JS.startsWith. cbn. destruct s; reflexivity.
Qed.

(** X12. [sanitizeUrl] leaves the empty string empty and gives every
    other string a scheme: the result begins with [http://] or
    [https://].  It is idempotent.  A string of white space only
    becomes the bare scheme [https://]. *)
Theorem sanitizeUrl_gives_a_scheme (url : string) :
  validators.sanitizeUrl (validators.sanitizeUrl url) = validators.sanitizeUrl url
  /\ (url <> "" ->
      JS.startsWith (validators.sanitizeUrl url) "http://" = true
      \/ JS.startsWith (validators.sanitizeUrl url) "https://" = true)
  /\ (url = "" -> validators.sanitizeUrl url = "")
  /\ (url <> "" -> blank url -> validators.sanitizeUrl url = "https://").
Proof.
  unfold validators.sanitizeUrl.
  destruct (JS.truthy url) eqn:T; cbn [negb].
  - assert (Hne : url <> "").
    { intros ->. discriminate T. }
    split; [| split; [| split]].
    + destruct (JS.startsWith (JS.trim url) "http://") eqn:E1; cbn [negb andb].
      * assert (T' : JS.truthy (JS.trim url) = true).
        { destruct (JS.trim url); [discriminate E1 | reflexivity]. }
        rewrite T'. cbn [negb]. rewrite trim_idempotent, E1. reflexivity.
      * destruct (JS.startsWith (JS.trim url) "https://") eqn:E2; cbn [negb].
        -- assert (T' : JS.truthy (JS.trim url) = true).
           { destruct (JS.trim url); [discriminate E2 | reflexivity]. }
           rewrite T'. cbn [negb]. rewrite trim_idempotent, E1, E2. reflexivity.
        -- replace (JS.truthy ("https://" ++ JS.trim url)) with true by reflexivity.
           cbn [negb]. rewrite trim_after_scheme.
           rewrite starts_with_scheme, andb_false_r. reflexivity.
    + intros _.
      destruct (JS.startsWith (JS.trim url) "http://") eqn:E1; cbn [negb andb];
        [left; exact E1 |].
      destruct (JS.startsWith (JS.trim url) "https://") eqn:E2; cbn [negb];
        [right; exact E2 | right; apply starts_with_scheme].
    + intros ->. discriminate T.
    + intros _ B. rewrite (trim_blank url B). reflexivity.
  - assert (He : url = "").
    { unfold JS.truthy in T. apply negb_false_iff, String.eqb_eq in T. exact T. }
    subst url. repeat split; try reflexivity; intros H; now destruct H.
Qed.

(** X12 on an address without a scheme, padded with spaces. *)
Lemma sanitizeUrl_gives_a_scheme_witness :
  validators.sanitizeUrl "  example.com " = "https://example.com"
  /\ JS.startsWith (validators.sanitizeUrl "  example.com ") "https://" = true.
Proof.
  destruct (sanitizeUrl_gives_a_scheme "  example.com ") as [_ [H _]].
  split; [reflexivity |].
  destruct H as [H | H]; [discriminate | discriminate H | exact H].
Defined.

(** ** The routes *)

(** A validated [url] is a non-empty string that parses. *)
Lemma validated_parses (parse : string -> Throws validators.URL) (url : validators.value) :
  validators.validateUrl parse url = true ->
  exists s urlObj,
    url = validators.text s /\ s <> "" /\ parse s = Return urlObj
    /\ (validators.protocol urlObj = "http:" \/ validators.protocol urlObj = "https:").
Proof.
  destruct url as [| s |]; cbn; try discriminate.
  destruct (JS.truthy s) eqn:T; cbn [negb]; [| discriminate].
  destruct (parse s) as [urlObj | m] eqn:P; [| discriminate].
  intros H. exists s, urlObj. split; [reflexivity |]. split.
  - intros ->. discriminate T.
  - split; [exact P |].
    apply orb_true_iff in H. destruct H as [H | H]; apply String.eqb_eq in H; auto.
Qed.




